(** * Cost-of-living calculator: the extraction and normalisation pipeline of
    [server.js], embedded in Rocq.

    Modelling conventions.
    - A JavaScript string is a [string]; an [ascii] stands for a UTF-16 code
      unit below 256 (Latin-1), so the character classes and the case mapping
      are written out for that range.
    - A JavaScript number is an IEEE 754 double.  A finite double is held as
      the rational it equals ([Q]); NaN and the two infinities are
      constructors of their own.  Reading a decimal, a product and a quotient
      round the exact result to the nearest double, ties to even, with
      overflow to Infinity and gradual underflow.  The sign of a zero is not
      kept: the server never divides by a zero and JSON prints both zeros
      alike.
    - A plain JavaScript object used as a dictionary is a [gmap] of its own
      properties; a property read that misses the own properties continues in
      [Object.prototype], which is written out where the source indexes an
      object with a key computed from the request.
    - The document returned by the scrape target is seen through the calls the
      scanner makes on it: the selected tables, the [tr] elements found in
      each, and the text of the [td] elements found in each row. *)

From Stdlib Require Import ZArith QArith Qround Ascii String List Bool Lia.
From Stdlib Require Import SpecFloat.
From stdpp Require Import gmap strings.

Local Open Scope string_scope.
Local Open Scope list_scope.

(** ** JavaScript primitives used by the server *)

Module Js.

(** The values that flow through prices and category fields; [Num q] is the
    finite double equal to [q], [Inf s] is Infinity with its sign. *)
Inductive value : Type :=
| Undefined
| Null
| NaN
| Num (q : Q)
| Inf (negative : bool).

Definition Infinity : value := Inf false.

(** ToBoolean. *)
Definition truthy (v : value) : bool :=
  match v with
  | Num q => negb (Qnum q =? 0)%Z
  | Inf _ => true
  | _ => false
  end.

(** ToNumber: the value as a number, NaN and the infinities included. *)
Definition to_number (v : value) : value :=
  match v with
  | Undefined => NaN
  | Null => Num 0
  | _ => v
  end.

(** [a || b] *)
Definition or (a b : value) : value := if truthy a then a else b.

(** *** Rounding to the nearest double *)

(** The integer part of the binary logarithm of [n / d], for [n] and [d]
    above 0: the difference of the two integer logarithms or one less. *)
Definition floor_log2 (n d : Z) : Z :=
  let l := (Z.log2 n - Z.log2 d)%Z in
  if (d * 2 ^ Z.max 0 l <=? n * 2 ^ Z.max 0 (- l))%Z then l else (l - 1)%Z.

(** The integer nearest to [n / d], the even one of two that are as near. *)
Definition round_half_even (n d : Z) : Z :=
  let q := (n / d)%Z in
  let r := (n mod d)%Z in
  if (2 * r <? d)%Z then q
  else if (d <? 2 * r)%Z then (q + 1)%Z
  else if Z.even q then q else (q + 1)%Z.

(** [m * 2 ^ e] *)
Definition scale2 (m e : Z) : Q :=
  if (0 <=? e)%Z then inject_Z (m * 2 ^ e) else m # Z.to_pos (2 ^ (- e)).

(** The double nearest to [n / d], for [n] and [d] above 0.  The exponent
    [e] leaves 53 bits to the significand and stops at that of the
    subnormal numbers; what reaches [2 ^ 1024] after rounding is Infinity. *)
Definition nearest_double_pos (n d : Z) : value :=
  let e := Z.max (floor_log2 n d - 52) (-1074) in
  let m := round_half_even (n * 2 ^ Z.max 0 (- e)) (d * 2 ^ Z.max 0 e) in
  if (2 ^ 1024 <=? m * 2 ^ Z.max 0 e)%Z then Inf false
  else Num (Qred (scale2 m e)).

Definition negate (v : value) : value :=
  match v with
  | Num q => Num (- q)
  | Inf s => Inf (negb s)
  | _ => v
  end.

(** The double nearest to a rational. *)
Definition nearest_double (q : Q) : value :=
  match Qnum q with
  | Z0 => Num 0
  | Zpos n => nearest_double_pos (Zpos n) (Zpos (Qden q))
  | Zneg n => negate (nearest_double_pos (Zpos n) (Zpos (Qden q)))
  end.

Definition is_zero (q : Q) : bool := (Qnum q =? 0)%Z.

Definition is_negative (q : Q) : bool := (Qnum q <? 0)%Z.

(** [a * b]: the exact product rounded to the nearest double. *)
Definition mul (a b : value) : value :=
  match to_number a, to_number b with
  | Num x, Num y => nearest_double (x * y)
  | Num x, Inf s | Inf s, Num x =>
      if is_zero x then NaN else Inf (xorb s (is_negative x))
  | Inf s, Inf t => Inf (xorb s t)
  | _, _ => NaN
  end.

(** [a / b]: the exact quotient rounded to the nearest double; a zero
    divisor, which the server never has, counts as positive. *)
Definition div (a b : value) : value :=
  match to_number a, to_number b with
  | Num x, Num y =>
      if is_zero y then (if is_zero x then NaN else Inf (is_negative x))
      else nearest_double (x / y)
  | Num _, Inf _ => Num 0
  | Inf s, Num y => Inf (xorb s (is_negative y))
  | _, _ => NaN
  end.

(** [Math.round] on a finite number: the nearest integer, halves upwards. *)
Definition round (q : Q) : Z := Qfloor (q + (1 # 2)).

Definition Math_round (v : value) : value :=
  match to_number v with
  | Num q => Num (inject_Z (round q))
  | Inf s => Inf s
  | _ => NaN
  end.

(** What [JSON.stringify] prints for a number-valued property: the number
    when it is finite, and [null], here [None], for NaN and the infinities
    (a property holding undefined is left out, also [None]). *)
Definition json_number (v : value) : option Q :=
  match v with
  | Num q => Some q
  | _ => None
  end.

(** *** Characters *)

Definition code (c : ascii) : nat := nat_of_ascii c.

Definition in_range (lo hi : nat) (c : ascii) : bool :=
  (lo <=? code c)%nat && (code c <=? hi)%nat.

(** The class [\s], which is also what [trim] removes: TAB, LF, VT, FF, CR,
    SPACE and NO-BREAK SPACE. *)
Definition is_space (c : ascii) : bool :=
  in_range 9 13 c || (code c =? 32)%nat || (code c =? 160)%nat.

(** The class [\d]. *)
Definition is_digit (c : ascii) : bool := in_range 48 57 c.

(** What [.] refuses: LF and CR. *)
Definition is_line_terminator (c : ascii) : bool :=
  (code c =? 10)%nat || (code c =? 13)%nat.

Definition is_upper (c : ascii) : bool :=
  in_range 65 90 c || in_range 192 214 c || in_range 216 222 c.

Definition lower_char (c : ascii) : ascii :=
  if is_upper c then ascii_of_nat (code c + 32) else c.

(** Canonicalisation used by a case-insensitive pattern without the unicode
    flag: the upper-case form, where a character outside ASCII is left
    alone when compared with the ASCII characters of the server's
    patterns. *)
Definition canon (c : ascii) : ascii :=
  if in_range 97 122 c then ascii_of_nat (code c - 32) else c.

Definition same_char_ci (p x : ascii) : bool :=
  Ascii.eqb (canon p) (canon x).

(** *** Strings *)

Definition is_empty (s : string) : bool :=
  match s with
  | EmptyString => true
  | String _ _ => false
  end.

(** [s.toLowerCase()] *)
Fixpoint toLowerCase (s : string) : string :=
  match s with
  | EmptyString => EmptyString
  | String c r => String (lower_char c) (toLowerCase r)
  end.

(** [s.replace(/C/g, '')] for a character class [C]. *)
Fixpoint remove_all (cls : ascii -> bool) (s : string) : string :=
  match s with
  | EmptyString => EmptyString
  | String c r => if cls c then remove_all cls r else String c (remove_all cls r)
  end.

Fixpoint trim_start (s : string) : string :=
  match s with
  | EmptyString => EmptyString
  | String c r => if is_space c then trim_start r else s
  end.

Fixpoint trim_end (s : string) : string :=
  match s with
  | EmptyString => EmptyString
  | String c r =>
      match trim_end r with
      | EmptyString => if is_space c then EmptyString else String c EmptyString
      | r' => String c r'
      end
  end.

(** [s.trim()] *)
Definition trim (s : string) : string := trim_end (trim_start s).

Fixpoint starts_with (p s : string) : bool :=
  match p, s with
  | EmptyString, _ => true
  | String a p', String b s' => Ascii.eqb a b && starts_with p' s'
  | String _ _, EmptyString => false
  end.

(** [s.includes(p)] *)
Fixpoint includes (s p : string) : bool :=
  starts_with p s ||
  match s with
  | EmptyString => false
  | String _ r => includes r p
  end.

(** *** The patterns of the server

    Every pattern of [server.js] that is applied to a label is a sequence of
    literal characters and [.*], case-insensitive, not anchored. *)

Inductive item : Type :=
| Lit (c : ascii)
| AnyStar.

Definition pattern : Type := list item.

Definition literal (s : string) : pattern := map Lit (list_ascii_of_string s).

(** [re ["a"; "b"; "c"]] is [/a.*b.*c/i]. *)
Fixpoint re (parts : list string) : pattern :=
  match parts with
  | [] => []
  | [p] => literal p
  | p :: rest => (literal p ++ AnyStar :: re rest)%list
  end.

(** Does the pattern match a prefix of the text? *)
Fixpoint match_here (p : pattern) : list ascii -> bool :=
  match p with
  | [] => fun _ => true
  | Lit c :: p' =>
      fun s =>
        match s with
        | x :: s' => same_char_ci c x && match_here p' s'
        | [] => false
        end
  | AnyStar :: p' =>
      fix star (s : list ascii) : bool :=
        match_here p' s ||
        match s with
        | x :: s' => negb (is_line_terminator x) && star s'
        | [] => false
        end
  end.

(** Does the pattern match somewhere in the text? *)
Fixpoint search (p : pattern) (s : list ascii) : bool :=
  match_here p s ||
  match s with
  | _ :: s' => search p s'
  | [] => false
  end.

(** [s.match(p)] is truthy. *)
Definition matches (s : string) (p : pattern) : bool :=
  search p (list_ascii_of_string s).

(** *** parseFloat on a run of digits and points *)

Definition digit_val (c : ascii) : Z := Z.of_nat (code c - 48).

(** Reads the digits at the front of [s] into the accumulator; returns the
    value, the number of digits read and the rest. *)
Fixpoint read_digits (s : string) (acc : Z) (n : nat) : Z * nat * string :=
  match s with
  | String c r =>
      if is_digit c then read_digits r (10 * acc + digit_val c)%Z (S n)
      else (acc, n, s)
  | EmptyString => (acc, n, s)
  end.

(** [parseFloat(s)] for [s] made of digits and points, which is all the
    server passes to it: the longest prefix of the shape [d+], [d+.d*] or
    [.d+] is read, and without one the result is NaN.  The decimal read is
    rounded to the nearest double. *)
Definition parseFloat (s : string) : value :=
  let '(ip, ni, rest) := read_digits s 0%Z 0%nat in
  match rest with
  | String "."%char rest' =>
      let '(m, nf, _) := read_digits rest' ip 0%nat in
      if ((ni + nf)%nat =? 0)%nat then NaN
      else nearest_double (Qmake m (Z.to_pos (10 ^ Z.of_nat nf)))
  | _ => if (ni =? 0)%nat then NaN else nearest_double (inject_Z ip)
  end.

End Js.


(** ** Data of the server *)

(** One scraped row, as pushed on [rawData]. *)
Record RawPriceRow : Type := mkRaw { label : string; price : Js.value }.

(** The object [data] that the scan fills ([source] and [city] are never read
    back). *)
Record ScrapeData : Type := mkData {
  categories : gmap string Js.value;
  rawData : list RawPriceRow
}.

(** What the scanner sees of the fetched page. *)
Definition Row : Type := list string.
Definition Table : Type := list Row.
Definition Document : Type := list Table.

Record FallbackRecord : Type := mkFallback {
  housing : Q;
  outside : Q;
  meal : Q;
  transport : Q;
  utilities : Q
}.

(** The result of indexing the fallback table, after [|| null]. *)
Inductive Fallback : Type :=
| Registered (r : FallbackRecord)
| Builtin (name : string)
| NoFallback.

(** A property read [o.k] on a dictionary of values. *)
Definition get (o : gmap string Js.value) (k : string) : Js.value :=
  default Js.Undefined (o !! k).

(** ** parsePrice *)

Definition comma_or_dollar (c : ascii) : bool :=
  Ascii.eqb c ","%char || Ascii.eqb c "$"%char.

Definition digit_or_point (c : ascii) : bool :=
  Js.is_digit c || Ascii.eqb c "."%char.

Fixpoint take_run (s : string) : string :=
  match s with
  | String c r => if digit_or_point c then String c (take_run r) else EmptyString
  | EmptyString => EmptyString
  end.

(** [cleaned.match(/[\d.]+/)]: the first maximal run of digits and points. *)
Fixpoint first_run (s : string) : option string :=
  match s with
  | String c r => if digit_or_point c then Some (take_run s) else first_run r
  | EmptyString => None
  end.

Definition parsePrice (text : string) : Js.value :=
  if Js.is_empty text then Js.Null
  else
    let cleaned := Js.trim (Js.remove_all comma_or_dollar text) in
    match first_run cleaned with
    | Some m => Js.parseFloat m
    | None => Js.Null
    end.

(** ** The table scan of scrapeNumbeo *)

(** The chain of tests on a label; the result is the property of
    [data.categories] that receives the price. *)
Definition classify (label : string) : option string :=
  if Js.matches label (Js.re ["apartment"; "1"; "bedroom"; "city"; "centre"])
     || Js.matches label (Js.re ["rent"; "1"; "bed"; "center"])
  then Some "housingCenter"
  else if Js.matches label (Js.re ["apartment"; "1"; "bedroom"; "outside"])
          || Js.matches label (Js.re ["rent"; "1"; "bed"; "outside"])
  then Some "housingOutside"
  else if Js.matches label (Js.re ["meal"; "inexpensive"; "restaurant"])
          || Js.matches label (Js.re ["meal"; "cheap"; "restaurant"])
  then Some "mealRestaurant"
  else if Js.matches label (Js.re ["monthly"; "pass"])
          || Js.matches label (Js.re ["public"; "transport"])
  then Some "transportation"
  else if Js.matches label (Js.re ["basic"; "utilities"])
          || Js.matches label (Js.re ["electricity"; "heating"; "cooling"])
  then Some "utilities"
  else None.

(** The body of the inner [each]: one [tr] element, given by the texts of its
    [td] elements. *)
Definition scanRow (data : ScrapeData) (cells : Row) : ScrapeData :=
  match cells with
  | c0 :: c1 :: _ =>
      let label := Js.trim c0 in
      let priceText := Js.trim c1 in
      let price := parsePrice priceText in
      if negb (Js.is_empty label) && Js.truthy price then
        let raw := (rawData data ++ [mkRaw label price])%list in
        match classify label with
        | Some key => mkData (<[key := price]> (categories data)) raw
        | None => mkData (categories data) raw
        end
      else data
  | _ => data
  end.

Definition scanTable (data : ScrapeData) (t : Table) : ScrapeData :=
  fold_left scanRow t data.

Definition scanTables (tables : Document) : ScrapeData :=
  fold_left scanTable tables (mkData ∅ []).

(** The state codes of the first pattern of scrapeNumbeo. *)
Definition stateCodes : list string :=
  [ "CA"; "NY"; "TX"; "FL"; "IL"; "WA"; "MA"; "CO"; "OR"; "AZ"; "GA"; "NC";
    "MI"; "PA"; "OH"; "NJ"; "VA"; "TN"; "MD"; "MN"; "WI"; "MO"; "IN"; "SC";
    "AL"; "KY"; "LA"; "OK"; "CT"; "UT"; "NV"; "KS"; "AR"; "MS"; "NM"; "NE";
    "WV"; "ID"; "HI"; "ME"; "NH"; "RI"; "MT"; "DE"; "SD"; "ND"; "AK"; "VT";
    "WY"; "DC" ].

(** The class [\w], which decides where [\b] holds. *)
Definition is_word (c : ascii) : bool :=
  Js.is_digit c || Js.in_range 65 90 c || Js.in_range 97 122 c
  || Ascii.eqb c "_"%char.

Definition is_state_code (a b : ascii) : bool :=
  existsb
    (fun code =>
       match code with
       | String x (String y EmptyString) =>
           Js.same_char_ci x a && Js.same_char_ci y b
       | _ => false
       end)
    stateCodes.

(** Does a comma, white space and a state code followed by a word boundary
    start here?  The result is the text after the match. *)
Definition state_suffix_here (s : string) : option string :=
  match s with
  | String ","%char r =>
      match Js.trim_start r with
      | String a (String b rest) =>
          let boundary :=
            match rest with
            | String c _ => negb (is_word c)
            | EmptyString => true
            end in
          if is_state_code a b && boundary then Some rest else None
      | _ => None
      end
  | _ => None
  end.

(** [s.replace(/,\s*(CA|NY|...)\b/i, '')]: the leftmost match is removed. *)
Fixpoint remove_state (s : string) : string :=
  match state_suffix_here s with
  | Some rest => rest
  | None =>
      match s with
      | String c r => String c (remove_state r)
      | EmptyString => EmptyString
      end
  end.

(** [s.split(',')[0]] *)
Fixpoint before_comma (s : string) : string :=
  match s with
  | String c r => if Ascii.eqb c ","%char then EmptyString else String c (before_comma r)
  | EmptyString => EmptyString
  end.

(** [s.replace(/\s+/g, '-')]: one hyphen for each maximal run of white space;
    [inside] tells that the run has begun. *)
Fixpoint hyphenate_run (inside : bool) (s : string) : string :=
  match s with
  | String c r =>
      if Js.is_space c then
        if inside then hyphenate_run true r
        else String "-"%char (hyphenate_run true r)
      else String c (hyphenate_run false r)
  | EmptyString => EmptyString
  end.

Definition hyphenate (s : string) : string := hyphenate_run false s.

Definition not_slug_char (c : ascii) : bool :=
  negb (Js.is_digit c || Js.in_range 65 90 c || Js.in_range 97 122 c
        || Ascii.eqb c "-"%char).

Definition citySlug (cityName : string) : string :=
  let cityFormatted := remove_state (Js.trim cityName) in
  Js.remove_all not_slug_char
    (hyphenate (Js.trim (before_comma cityFormatted))).

Definition numbeoUrl (cityName : string) : string :=
  "https://www.numbeo.com/cost-of-living/in/" +:+ citySlug cityName.

(** [scrapeNumbeo]: [fetch] is the scrape target as the request sees it; it
    gives the parsed page for a URL, or [None] when the request is rejected
    (transport error, status other than 200, timeout), which the [catch] turns
    into [null]. *)
Definition scrapeNumbeo (fetch : string -> option Document) (cityName : string)
    : option ScrapeData :=
  match fetch (numbeoUrl cityName) with
  | None => None
  | Some tables =>
      if (length tables =? 0)%nat then None
      else
        let data := scanTables tables in
        if negb (Js.truthy (get (categories data) "housingCenter"))
           && (length (rawData data) =? 0)%nat
        then None
        else Some data
  end.

(** ** estimateGroceries *)

Definition estimateGroceries (mealPrice : Js.value) : Js.value :=
  if negb (Js.truthy mealPrice) then Js.Num 400
  else Js.Math_round (Js.div (Js.mul mealPrice (Js.Num 60)) (Js.Num 3)).

(** The entertainment line of the handler. *)
Definition estimateEntertainment (mealPrice : Js.value) : Js.value :=
  Js.Math_round (Js.mul (Js.or mealPrice (Js.Num 15)) (Js.Num 10)).

(** ** getFallbackData *)

Definition fallbackCities : gmap string FallbackRecord :=
  list_to_map [
    ("new york", mkFallback 3500 2500 20 127 150);
    ("newyork", mkFallback 3500 2500 20 127 150);
    ("london", mkFallback 2200 1600 18 165 200);
    ("tokyo", mkFallback 1200 700 10 70 150);
    ("paris", mkFallback 1400 1000 15 75 180);
    ("singapore", mkFallback 2800 2000 10 100 150);
    ("mountain view", mkFallback 3200 2600 18 100 120);
    ("mountainview", mkFallback 3200 2600 18 100 120);
    ("mountain view, ca", mkFallback 3200 2600 18 100 120);
    ("mountainviewca", mkFallback 3200 2600 18 100 120);
    ("los angeles", mkFallback 2500 1800 18 100 140);
    ("losangeles", mkFallback 2500 1800 18 100 140);
    ("los angeles, ca", mkFallback 2500 1800 18 100 140);
    ("la", mkFallback 2500 1800 18 100 140);
    ("san francisco", mkFallback 3600 2800 20 98 130);
    ("sanfrancisco", mkFallback 3600 2800 20 98 130);
    ("seattle", mkFallback 2300 1700 17 99 160);
    ("austin", mkFallback 1700 1300 15 75 150);
    ("boston", mkFallback 2900 2100 18 90 170);
    ("chicago", mkFallback 1900 1400 16 105 140)
  ].

(** The properties that the object literal inherits from [Object.prototype];
    each is a function or an object, hence truthy, and has none of the five
    fields of a record. *)
Definition objectPrototype : list string :=
  [ "constructor"; "__defineGetter__"; "__defineSetter__"; "hasOwnProperty";
    "__lookupGetter__"; "__lookupSetter__"; "isPrototypeOf";
    "propertyIsEnumerable"; "toString"; "valueOf"; "__proto__";
    "toLocaleString" ].

Definition cityKey (city : string) : string :=
  Js.remove_all (Ascii.eqb ","%char)
    (Js.remove_all Js.is_space (Js.toLowerCase city)).

(** [fallbackCities[cityKey] || null] *)
Definition getFallbackData (city : string) : Fallback :=
  let key := cityKey city in
  match fallbackCities !! key with
  | Some r => Registered r
  | None =>
      if existsb (String.eqb key) objectPrototype then Builtin key
      else NoFallback
  end.

(** [fallback.f] *)
Definition field (f : FallbackRecord -> Q) (fallback : Fallback) : Js.value :=
  match fallback with
  | Registered r => Js.Num (f r)
  | Builtin _ => Js.Undefined
  | NoFallback => Js.Undefined
  end.

(** ** The endpoint /api/cost-of-living/:city *)

Record RedditPost : Type := mkPost {
  title : string;
  subreddit : string;
  url : string;
  score : Js.value;
  comments : Js.value
}.

(** The body sent on success; a nested property [categories.housing.cityCenter]
    is the field [housing_cityCenter], and so on. *)
Record CostResult : Type := mkResult {
  city : string;
  currency : string;
  lastUpdated : string;
  housing_label : string;
  housing_cityCenter : Js.value;
  housing_outside : Js.value;
  food_label : string;
  food_monthly : Js.value;
  transportation_label : string;
  transportation_monthly : Js.value;
  utilities_label : string;
  utilities_monthly : Js.value;
  entertainment_label : string;
  entertainment_monthly : Js.value;
  sources : list string;
  redditDiscussions : list RedditPost
}.

(** The body sent with status 404. *)
Record NotFound : Type := mkNotFound {
  error : string;
  message : string;
  suggestion : string;
  tip : string
}.

Inductive Reply : Type :=
| Ok (body : CostResult)
| Status404 (body : NotFound).

(** The double quote character. *)
Definition dq : string := String (ascii_of_nat 34) EmptyString.

Definition liveSources : list string := ["Numbeo.com (live)"; "Reddit discussions"].
Definition estimatedSources : list string := ["Estimated data"; "Reddit discussions"].

(** The object built from a fallback hit. *)
Definition fromFallback (fallback : Fallback) : gmap string Js.value :=
  <["utilities" := field utilities fallback]>
  (<["transportation" := field transport fallback]>
  (<["mealRestaurant" := field meal fallback]>
  (<["housingOutside" := field outside fallback]>
  (<["housingCenter" := field housing fallback]> ∅)))).

(** "Calculate estimates" and "Compile final response". *)
Definition compile (cityName : string) (finalData : gmap string Js.value)
    (numbeoData : option ScrapeData) (redditPosts : list RedditPost)
    (today : string) : CostResult :=
  let groceries := estimateGroceries (get finalData "mealRestaurant") in
  let entertainment := estimateEntertainment (get finalData "mealRestaurant") in
  {| city := cityName;
     currency := "USD";
     lastUpdated := today;
     housing_label := "Housing (1-bedroom apt)";
     housing_cityCenter :=
       Js.Math_round (Js.or (get finalData "housingCenter") (Js.Num 1200));
     housing_outside :=
       Js.Math_round (Js.or (get finalData "housingOutside") (Js.Num 800));
     food_label := "Food & Groceries";
     food_monthly := groceries;
     transportation_label := "Transportation";
     transportation_monthly :=
       Js.Math_round (Js.or (get finalData "transportation") (Js.Num 70));
     utilities_label := "Utilities";
     utilities_monthly :=
       Js.Math_round (Js.or (get finalData "utilities") (Js.Num 150));
     entertainment_label := "Entertainment";
     entertainment_monthly := entertainment;
     sources :=
       match numbeoData with
       | Some _ => liveSources
       | None => estimatedSources
       end;
     redditDiscussions := firstn 5 redditPosts |}.

Definition notFound (cityName : string) : NotFound :=
  let suggestions :=
    if Js.includes (Js.toLowerCase cityName) "mountain"
    then "Try: " +:+ dq +:+ "Mountain View" +:+ dq +:+ " without CA"
    else "Try major cities like: New York, Los Angeles, San Francisco, Seattle, Chicago, Boston, Austin, or international cities like London, Tokyo, Paris" in
  {| error := "City not found";
     message := "Could not find cost of living data for " +:+ dq +:+ cityName
                +:+ dq +:+ ". The city might not be in Numbeo's database.";
     suggestion := suggestions;
     tip := "For US cities, try without the state code (e.g., " +:+ dq
            +:+ "Los Angeles" +:+ dq +:+ " instead of " +:+ dq
            +:+ "Los Angeles, CA" +:+ dq +:+ ")" |}.

(** Which object becomes [finalData]: the scraped categories when the scrape
    gave a truthy [housingCenter], otherwise the fallback; [None] is the early
    return with status 404. *)
Definition chooseData (cityName : string) (numbeoData : option ScrapeData)
    : option (gmap string Js.value) :=
  let scraped :=
    match numbeoData with
    | Some d => Js.truthy (get (categories d) "housingCenter")
    | None => false
    end in
  if scraped then categories <$> numbeoData
  else
    match getFallbackData cityName with
    | NoFallback => None
    | fallback => Some (fromFallback fallback)
    end.

(** The handler.  [fetch] is the scrape target, [redditPosts] what
    [searchReddit] resolved to (an array in every case) and [today] the
    formatted date. *)
Definition handler (cityName : string) (fetch : string -> option Document)
    (redditPosts : list RedditPost) (today : string) : Reply :=
  let numbeoData := scrapeNumbeo fetch cityName in
  match chooseData cityName numbeoData with
  | Some finalData => Ok (compile cityName finalData numbeoData redditPosts today)
  | None => Status404 (notFound cityName)
  end.

(** ** searchReddit *)

(** [encodeURIComponent]: the characters it leaves alone. *)
Definition unreserved (c : ascii) : bool :=
  Js.is_digit c || Js.in_range 65 90 c || Js.in_range 97 122 c
  || existsb (Ascii.eqb c)
       ["-"; "_"; "."; "!"; "~"; "*"; "'"; "("; ")"]%char.

Definition hex_digit (n : nat) : ascii :=
  nth n (list_ascii_of_string "0123456789ABCDEF") "0"%char.

(** One escaped octet. *)
Definition percent (byte : nat) : list ascii :=
  ["%"%char; hex_digit (byte / 16); hex_digit (byte mod 16)].

(** The escape of one code unit below 256: itself when unreserved, otherwise
    the octets of its UTF-8 form, one below 128 and two from there on. *)
Definition encode_char (c : ascii) : list ascii :=
  if unreserved c then [c]
  else if (Js.code c <? 128)%nat then percent (Js.code c)
  else percent (192 + Js.code c / 64) ++ percent (128 + Js.code c mod 64).

Definition encodeURIComponent (s : string) : string :=
  string_of_list_ascii (flat_map encode_char (list_ascii_of_string s)).

(** [child.data] of a child of the listing, as far as the server reads it; an
    empty [data_title] also stands for a missing one. *)
Record RedditData : Type := mkRedditData {
  data_title : string;
  data_subreddit : string;
  permalink : string;
  data_score : Js.value;
  num_comments : Js.value
}.

(** A child of the listing: [null] (or undefined), or an object with its
    [data], [None] when that is missing. *)
Inductive RedditChild : Type :=
| NullChild
| Child (data : option RedditData).

(** What the search request gives: it is rejected, or the body lacks one of
    [data], [data.data], [data.data.children], or it has the array of
    children. *)
Inductive RedditAnswer : Type :=
| Rejected
| NoListing
| Listing (children : list RedditChild).

Definition redditUrl (cityName : string) : string :=
  let query := cityName +:+ " cost of living" in
  "https://www.reddit.com/search.json?q=" +:+ encodeURIComponent query
  +:+ "&limit=10&sort=relevance".

(** Reading [child.data] throws on a child that is null. *)
Definition isNullChild (child : RedditChild) : bool :=
  match child with
  | NullChild => true
  | Child _ => false
  end.

(** The filter [child.data && child.data.title]. *)
Definition hasTitle (child : RedditChild) : bool :=
  match child with
  | Child (Some d) => negb (Js.is_empty (data_title d))
  | _ => false
  end.

(** The mapping of a kept child; only a child with [data] gets here. *)
Definition toPost (child : RedditChild) : RedditPost :=
  match child with
  | Child (Some d) =>
      {| title := data_title d;
         subreddit := data_subreddit d;
         url := "https://reddit.com" +:+ permalink d;
         score := data_score d;
         comments := num_comments d |}
  | _ => mkPost "" "" "" Js.Undefined Js.Undefined
  end.

(** [searchReddit]: the filter runs over all children before the mapping
    starts, so a null child anywhere makes it throw, and the [catch] returns
    the empty array, as it does for a rejected request. *)
Definition searchReddit (reddit : string -> RedditAnswer) (cityName : string)
    : list RedditPost :=
  match reddit (redditUrl cityName) with
  | Rejected => []
  | NoListing => []
  | Listing children =>
      if existsb isNullChild children then []
      else map toPost (List.filter hasTitle children)
  end.

(** The two requests of the handler together: [Promise.all] of the scrape and
    the search, then the handler proper. *)
Definition endpoint (fetch : string -> option Document)
    (reddit : string -> RedditAnswer) (cityName today : string) : Reply :=
  handler cityName fetch (searchReddit reddit cityName) today.

(** ** Notions used to state the properties *)

(** [m] is the literal [lit] up to the case of ASCII letters. *)
Definition ci_equal (lit : string) (m : list ascii) : Prop :=
  Forall2 (fun p x => Js.canon p = Js.canon x) (list_ascii_of_string lit) m.

(** [label] contains [lit] as a substring, case-insensitively. *)
Definition contains_ci (label lit : string) : Prop :=
  exists a m d, list_ascii_of_string label = (a ++ m ++ d)%list /\ ci_equal lit m.

(** A stretch of text that [.*] can cross. *)
Definition one_line (b : list ascii) : Prop :=
  Forall (fun x => Js.is_line_terminator x = false) b.

(** The scanner keeps [row] and hands [p] to the category [key]. *)
Definition classifiedRow (row : Row) (key : string) (p : Js.value) : Prop :=
  exists c0 c1 rest,
    row = c0 :: c1 :: rest /\ Js.is_empty (Js.trim c0) = false /\
    parsePrice (Js.trim c1) = p /\ Js.truthy p = true /\
    classify (Js.trim c0) = Some key.

(** A whole number of currency units. *)
Definition is_amount (v : Js.value) : Prop :=
  exists z : Z, v = Js.Num (inject_Z z).

(** The five properties of a category map. *)
Definition categoryKeys : list string :=
  ["housingCenter"; "housingOutside"; "mealRestaurant"; "transportation";
   "utilities"].

(** Every code unit below 256. *)
Definition all_ascii : list ascii := map ascii_of_nat (seq 0 256).

(** A value that the defaults replace, or a price above 0, Infinity
    included. *)
Definition falsy_or_positive (v : Js.value) : Prop :=
  Js.truthy v = false \/ (exists q, v = Js.Num q /\ (0 < q)%Q) \/
  v = Js.Infinity.

(** A double of the Standard Library's specification of IEEE 754
    ([SpecFloat], used here with precision 53 and exponents below 1024) as a
    value, and a whole number as such a double before any rounding; they
    serve to compare the rounding above with that specification. *)
Definition of_spec_float (f : spec_float) : Js.value :=
  match f with
  | S754_zero _ => Js.Num 0
  | S754_infinity s => Js.Inf s
  | S754_nan => Js.NaN
  | S754_finite s m e =>
      let q := Qred (Js.scale2 (Zpos m) e) in
      Js.Num (if s then Qopp q else q)
  end.

Definition spec_int (z : positive) : spec_float := S754_finite false z 0.

(** A text of [n] digits 9. *)
Definition nines (n : nat) : string := string_of_list_ascii (repeat "9"%char n).

(** A whole number of currency units that is not negative. *)
Definition is_natural_amount (v : Js.value) : Prop :=
  exists z : Z, v = Js.Num (inject_Z z) /\ (0 <= z)%Z.

(** No pattern character lies outside ASCII. *)
Definition ascii_pattern (p : Js.pattern) : bool :=
  forallb
    (fun it =>
       match it with
       | Js.Lit c => (Js.code c <? 128)%nat
       | Js.AnyStar => true
       end)
    p.

(** The text has a digit or a point somewhere. *)
Definition has_digit_or_point (text : string) : Prop :=
  exists c, In c (list_ascii_of_string text) /\ digit_or_point c = true.

(** White space only. *)
Definition blank (s : string) : Prop :=
  Forall (fun c => Js.is_space c = true) (list_ascii_of_string s).

(** No comma. *)
Definition comma_free (s : string) : Prop :=
  Forall (fun c => c <> ","%char) (list_ascii_of_string s).

(** ** Pattern matching *)

Section Patterns.

Import Js.

Lemma match_here_star_eq (p : pattern) (s : list ascii) :
  match_here (AnyStar :: p) s =
  match_here p s ||
  match s with
  | x :: s' => negb (is_line_terminator x) && match_here (AnyStar :: p) s'
  | [] => false
  end.
Proof. destruct s; reflexivity. Qed.

Lemma same_char_ci_canon (a x : ascii) :
  canon a = canon x -> same_char_ci a x = true.
Proof. intros E. unfold same_char_ci. rewrite E. apply Ascii.eqb_refl. Qed.

(** A literal is matched by any text equal to it up to case. *)
Lemma match_here_literal (lit : string) (m : list ascii) (p : pattern)
    (rest : list ascii) :
  ci_equal lit m -> match_here p rest = true ->
  match_here (literal lit ++ p) (m ++ rest) = true.
Proof.
  unfold ci_equal, literal. generalize (list_ascii_of_string lit) as l.
  intros l H. induction H as [|a x l m Hax _ IH]; intros Hp; simpl.
  - exact Hp.
  - rewrite (same_char_ci_canon _ _ Hax). simpl. exact (IH Hp).
Qed.

(** [.*] crosses any text without a line terminator. *)
Lemma match_here_star (p : pattern) (b rest : list ascii) :
  one_line b -> match_here p rest = true ->
  match_here (AnyStar :: p) (b ++ rest) = true.
Proof.
  intros Hb Hp. induction Hb as [|x b Hx _ IH].
  - rewrite match_here_star_eq. simpl. rewrite Hp. reflexivity.
  - rewrite match_here_star_eq. change ((x :: b) ++ rest) with (x :: (b ++ rest)).
    cbv beta iota. rewrite Hx, IH. simpl. apply orb_true_r.
Qed.

Lemma search_skip (p : pattern) (a rest : list ascii) :
  match_here p rest = true -> search p (a ++ rest) = true.
Proof.
  intros Hp. induction a as [|x a IH]; simpl.
  - destruct rest; simpl; rewrite Hp; reflexivity.
  - rewrite IH. apply orb_true_r.
Qed.

(** The text shape that a pattern of three literals accepts. *)
Lemma matches_three (label l1 l2 l3 : string) (a m1 b m2 c m3 d : list ascii) :
  list_ascii_of_string label = a ++ m1 ++ b ++ m2 ++ c ++ m3 ++ d ->
  ci_equal l1 m1 -> ci_equal l2 m2 -> ci_equal l3 m3 ->
  one_line b -> one_line c ->
  matches label (re [l1; l2; l3]) = true.
Proof.
  intros E H1 H2 H3 Hb Hc. unfold matches. rewrite E. simpl re.
  apply search_skip.
  apply match_here_literal; [exact H1|].
  apply match_here_star; [exact Hb|].
  apply match_here_literal; [exact H2|].
  apply match_here_star; [exact Hc|].
  rewrite <- (app_nil_r (literal l3)).
  apply match_here_literal; [exact H3|]. reflexivity.
Qed.

End Patterns.

(** ** The classifier *)

(** C5, as amended: a label in which "meal", then "inexpensive" or "cheap",
    then "restaurant" occur in this order without overlapping, up to case and
    with no line break between the first and the last, and which neither of
    the two housing rules takes, is classified as mealRestaurant. *)
Theorem classify_meal_in_order (label : string) (a m b i c r d : list ascii) :
  list_ascii_of_string label = (a ++ m ++ b ++ i ++ c ++ r ++ d)%list ->
  ci_equal "meal" m ->
  ci_equal "inexpensive" i \/ ci_equal "cheap" i ->
  ci_equal "restaurant" r ->
  one_line b -> one_line c ->
  classify label <> Some "housingCenter" ->
  classify label <> Some "housingOutside" ->
  classify label = Some "mealRestaurant".
Proof.
  intros E Hm Hi Hr Hb Hc Hn1 Hn2. unfold classify in *.
  destruct (Js.matches label (Js.re ["apartment"; "1"; "bedroom"; "city"; "centre"])
            || Js.matches label (Js.re ["rent"; "1"; "bed"; "center"]));
    [congruence|].
  destruct (Js.matches label (Js.re ["apartment"; "1"; "bedroom"; "outside"])
            || Js.matches label (Js.re ["rent"; "1"; "bed"; "outside"]));
    [congruence|].
  destruct Hi as [Hi|Hi].
  - rewrite (matches_three label _ _ _ a m b i c r d E Hm Hi Hr Hb Hc).
    reflexivity.
  - rewrite (matches_three label "meal" "cheap" _ a m b i c r d E Hm Hi Hr Hb Hc).
    rewrite orb_true_r. reflexivity.
Qed.

Lemma classify_meal_in_order_witness :
  classify "Meal, Inexpensive Restaurant" = Some "mealRestaurant".
Proof.
  apply (classify_meal_in_order "Meal, Inexpensive Restaurant"
           [] (list_ascii_of_string "Meal") (list_ascii_of_string ", ")
           (list_ascii_of_string "Inexpensive") (list_ascii_of_string " ")
           (list_ascii_of_string "Restaurant") []).
  - reflexivity.
  - repeat constructor.
  - left. repeat constructor.
  - repeat constructor.
  - repeat constructor.
  - repeat constructor.
  - vm_compute. discriminate.
  - vm_compute. discriminate.
Defined.

(** C5, as stated, fails: this label contains "meal", "restaurant" and "cheap"
    and is taken by neither housing rule, yet it stays unclassified, because
    the words do not come in the order of the pattern. *)
Lemma classify_meal_any_order_fails :
  contains_ci "Cheap restaurant meal" "meal" /\
  contains_ci "Cheap restaurant meal" "restaurant" /\
  contains_ci "Cheap restaurant meal" "cheap" /\
  classify "Cheap restaurant meal" <> Some "housingCenter" /\
  classify "Cheap restaurant meal" <> Some "housingOutside" /\
  classify "Cheap restaurant meal" <> Some "mealRestaurant".
Proof.
  split; [|split; [|split]].
  - exists (list_ascii_of_string "Cheap restaurant "),
      (list_ascii_of_string "meal"), []. split; [reflexivity|repeat constructor].
  - exists (list_ascii_of_string "Cheap "),
      (list_ascii_of_string "restaurant"), (list_ascii_of_string " meal").
    split; [reflexivity|repeat constructor].
  - exists [], (list_ascii_of_string "Cheap"),
      (list_ascii_of_string " restaurant meal").
    split; [reflexivity|repeat constructor].
  - vm_compute. repeat split; discriminate.
Qed.

(** ** Rounding to the nearest double *)

Section Doubles.

Import Js.

Local Open Scope Z_scope.

Lemma round_half_even_nonneg n d : 0 <= n -> 0 < d -> 0 <= round_half_even n d.
Proof.
  intros Hn Hd. unfold round_half_even.
  pose proof (Z.div_pos n d Hn Hd).
  destruct (2 * (n mod d) <? d); [lia|].
  destruct (d <? 2 * (n mod d)); [lia|]. destruct (Z.even (n / d)); lia.
Qed.

Lemma scale2_nonneg m e : 0 <= m -> (0 <= scale2 m e)%Q.
Proof.
  intros Hm. unfold scale2. destruct (0 <=? e) eqn:E.
  - unfold Qle. simpl. apply Z.leb_le in E.
    pose proof (Z.pow_nonneg 2 e ltac:(lia)). nia.
  - unfold Qle. simpl. lia.
Qed.

Lemma nearest_double_pos_shape n d :
  0 < n -> 0 < d ->
  (exists q, nearest_double_pos n d = Num q /\ (0 <= q)%Q) \/
  nearest_double_pos n d = Inf false.
Proof.
  intros Hn Hd. unfold nearest_double_pos.
  set (e := Z.max (floor_log2 n d - 52) (-1074)).
  set (m := round_half_even _ _).
  destruct (2 ^ 1024 <=? m * 2 ^ Z.max 0 e); [right; reflexivity|left].
  eexists. split; [reflexivity|]. rewrite Qred_correct. apply scale2_nonneg.
  apply round_half_even_nonneg.
  - pose proof (Z.pow_nonneg 2 (Z.max 0 (- e)) ltac:(lia)). nia.
  - pose proof (Z.pow_pos_nonneg 2 (Z.max 0 e) ltac:(lia) ltac:(lia)). nia.
Qed.

Lemma nearest_double_shape q :
  (0 <= q)%Q ->
  (exists q', nearest_double q = Num q' /\ (0 <= q')%Q) \/
  nearest_double q = Inf false.
Proof.
  intros H. unfold nearest_double. destruct (Qnum q) as [|n|n] eqn:E.
  - left. exists 0%Q. split; [reflexivity|]. unfold Qle. simpl. lia.
  - apply nearest_double_pos_shape; lia.
  - unfold Qle in H. simpl in H. rewrite E in H. lia.
Qed.

(** The exponent found is the integer part of the binary logarithm. *)
Lemma floor_log2_spec n d :
  0 < n -> 0 < d ->
  let lg := floor_log2 n d in
  d * 2 ^ Z.max 0 lg <= n * 2 ^ Z.max 0 (- lg) /\
  n * 2 ^ Z.max 0 (- (lg + 1)) < d * 2 ^ Z.max 0 (lg + 1).
Proof.
  intros Hn Hd. cbv zeta. unfold floor_log2.
  destruct (Z.log2_spec n Hn) as [Hn1 Hn2].
  destruct (Z.log2_spec d Hd) as [Hd1 Hd2].
  pose proof (Z.log2_nonneg n) as Ln. pose proof (Z.log2_nonneg d) as Ld.
  set (a := Z.log2 n) in *. set (b := Z.log2 d) in *.
  rewrite Z.pow_succ_r in Hn2, Hd2 by lia.
  destruct (Z.leb_spec (d * 2 ^ Z.max 0 (a - b)) (n * 2 ^ Z.max 0 (- (a - b)))) as [T|T].
  - split; [exact T|].
    destruct (Z.le_gt_cases b a) as [C|C].
    + rewrite (Z.max_l 0 (- (a - b + 1))) by lia.
      rewrite (Z.max_r 0 (a - b + 1)) by lia.
      replace (a - b + 1) with (Z.succ (a - b)) by lia.
      rewrite Z.pow_succ_r by lia. rewrite Z.pow_0_r.
      assert (E : 2 ^ a = 2 ^ (a - b) * 2 ^ b).
      { rewrite <- Z.pow_add_r by lia. f_equal. lia. }
      pose proof (Z.pow_pos_nonneg 2 (a - b) ltac:(lia) ltac:(lia)). nia.
    + (* a < b *)
      rewrite (Z.max_r 0 (- (a - b + 1))) by lia.
      rewrite (Z.max_l 0 (a - b + 1)) by lia. rewrite Z.pow_0_r.
      assert (E : 2 ^ b = 2 ^ (b - a - 1) * (2 * 2 ^ a)).
      { rewrite <- (Z.pow_succ_r 2 a) by lia. rewrite <- Z.pow_add_r by lia.
        f_equal. lia. }
      replace (- (a - b + 1)) with (b - a - 1) by lia.
      pose proof (Z.pow_pos_nonneg 2 (b - a - 1) ltac:(lia) ltac:(lia)). nia.
  - replace (a - b - 1 + 1) with (a - b) by lia.
    split; [|lia].
    destruct (Z.lt_ge_cases b a) as [C|C].
    + rewrite (Z.max_r 0 (a - b - 1)) by lia.
      rewrite (Z.max_l 0 (- (a - b - 1))) by lia. rewrite Z.pow_0_r.
      assert (E : 2 ^ a = 2 ^ (a - b - 1) * (2 * 2 ^ b)).
      { rewrite <- (Z.pow_succ_r 2 b) by lia. rewrite <- Z.pow_add_r by lia.
        f_equal. lia. }
      pose proof (Z.pow_pos_nonneg 2 (a - b - 1) ltac:(lia) ltac:(lia)). nia.
    + rewrite (Z.max_l 0 (a - b - 1)) by lia.
      rewrite (Z.max_r 0 (- (a - b - 1))) by lia. rewrite Z.pow_0_r.
      replace (- (a - b - 1)) with (Z.succ (b - a)) by lia.
      rewrite Z.pow_succ_r by lia.
      assert (E : 2 ^ b = 2 ^ (b - a) * 2 ^ a).
      { rewrite <- Z.pow_add_r by lia. f_equal. lia. }
      pose proof (Z.pow_pos_nonneg 2 (b - a) ltac:(lia) ltac:(lia)). nia.
Qed.

Lemma Qred_inject_Z k : Qred (inject_Z k) = inject_Z k.
Proof.
  unfold Qred, inject_Z.
  pose proof (Z.ggcd_gcd k 1) as G.
  pose proof (Z.ggcd_correct_divisors k 1) as D.
  destruct (Z.ggcd k 1) as [g [aa bb]]. simpl in G.
  rewrite Z.gcd_1_r in G. subst g. destruct D as [D1 D2].
  rewrite Z.mul_1_l in D1, D2. subst aa bb. reflexivity.
Qed.

Lemma round_half_even_exact x d : 0 < d -> round_half_even (x * d) d = x.
Proof.
  intros Hd. unfold round_half_even.
  rewrite Z.div_mul, Z.mod_mul by lia.
  destruct (Z.ltb_spec (2 * 0) d); [reflexivity|lia].
Qed.

Lemma nearest_double_pos_whole n d k :
  0 < d -> 0 < k < 2 ^ 53 -> n = k * d ->
  nearest_double_pos n d = Num (inject_Z k).
Proof.
  intros Hd Hk ->.
  assert (Hn : 0 < k * d) by nia.
  pose proof (floor_log2_spec (k * d) d Hn Hd) as S. cbv zeta in S.
  unfold nearest_double_pos.
  set (lg := floor_log2 (k * d) d) in *. destruct S as [S1 S2].
  assert (L0 : 0 <= lg).
  { destruct (Z.lt_ge_cases lg 0) as [C|C]; [exfalso|exact C].
    rewrite (Z.max_l 0 (lg + 1)) in S2 by lia. rewrite Z.pow_0_r in S2.
    pose proof (Z.pow_pos_nonneg 2 (Z.max 0 (- (lg + 1))) ltac:(lia) ltac:(lia)).
    nia. }
  rewrite (Z.max_r 0 lg) in S1 by lia.
  rewrite (Z.max_l 0 (- lg)) in S1 by lia. rewrite Z.pow_0_r in S1.
  rewrite (Z.max_r 0 (lg + 1)) in S2 by lia.
  rewrite (Z.max_l 0 (- (lg + 1))) in S2 by lia. rewrite Z.pow_0_r in S2.
  assert (K1 : 2 ^ lg <= k) by nia.
  assert (K2 : k < 2 ^ (lg + 1)) by nia.
  assert (L52 : lg <= 52).
  { destruct (Z.le_gt_cases lg 52) as [C|C]; [exact C|exfalso].
    assert (2 ^ 53 <= 2 ^ lg) by (apply Z.pow_le_mono_r; lia). lia. }
  replace (Z.max (lg - 52) (-1074)) with (lg - 52) by lia.
  rewrite (Z.max_r 0 (- (lg - 52))) by lia.
  rewrite (Z.max_l 0 (lg - 52)) by lia. rewrite Z.pow_0_r, !Z.mul_1_r.
  replace (k * d * 2 ^ (- (lg - 52))) with (k * 2 ^ (52 - lg) * d)
    by (replace (- (lg - 52)) with (52 - lg) by lia; ring).
  rewrite (round_half_even_exact _ d Hd).
  assert (P : 2 ^ 53 = 2 ^ (lg + 1) * 2 ^ (52 - lg)).
  { rewrite <- Z.pow_add_r by lia. f_equal. lia. }
  pose proof (Z.pow_pos_nonneg 2 (52 - lg) ltac:(lia) ltac:(lia)) as Pp.
  assert (M : k * 2 ^ (52 - lg) < 2 ^ 53) by nia.
  assert (B : 2 ^ 53 < 2 ^ 1024) by (apply Z.pow_lt_mono_r; lia).
  destruct (Z.leb_spec (2 ^ 1024) (k * 2 ^ (52 - lg))) as [C|_]; [lia|].
  f_equal. rewrite <- (Qred_inject_Z k). apply Qred_complete.
  unfold scale2. destruct (Z.leb_spec 0 (lg - 52)) as [C|C].
  - replace (lg - 52) with 0 by lia. replace (52 - lg) with 0 by lia.
    unfold Qeq. simpl. lia.
  - replace (- (lg - 52)) with (52 - lg) by lia.
    unfold Qeq, inject_Z. cbn [Qnum Qden]. rewrite Z2Pos.id by lia. lia.
Qed.

Lemma nearest_double_whole q k :
  0 < k < 2 ^ 53 -> Qnum q = k * Zpos (Qden q) ->
  nearest_double q = Num (inject_Z k).
Proof.
  intros Hk E. unfold nearest_double. destruct (Qnum q) as [|n|n] eqn:N.
  - nia.
  - apply nearest_double_pos_whole; [lia|exact Hk|exact E].
  - nia.
Qed.

Lemma round_inject_Z (k : Z) : round (inject_Z k) = k.
Proof.
  unfold round, Qfloor, Qplus, inject_Z. cbn [Qnum Qden].
  change (Z.pos (1 * 2)) with 2. symmetry.
  apply Z.div_unique with (r := 1); lia.
Qed.

Lemma round_nonneg (q : Q) : (0 <= q)%Q -> 0 <= round q.
Proof.
  intros H. unfold round. change 0 with (Qfloor 0).
  apply Qfloor_resp_le. unfold Qle, Qplus in *. simpl in *. lia.
Qed.

End Doubles.

(** On these operands the rounding agrees with the specification of the
    Standard Library: the price "1.025", its product with 60 and the third of
    that; two ties between doubles; a decimal of 308 digits, one of 309
    digits, which overflows, a subnormal quotient and a product that
    underflows to 0. *)
Example doubles_as_specified :
  let price := SFdiv 53 1024 (spec_int 1025) (spec_int 1000) in
  let product := SFmul 53 1024 price (spec_int 60) in
  let large := SFdiv 53 1024 (spec_int (10 ^ 308 - 1)) (spec_int 1) in
  let tiny := SFdiv 53 1024 (spec_int 1) large in
  Js.parseFloat "1.025" = of_spec_float price /\
  Js.mul (Js.parseFloat "1.025") (Js.Num 60) = of_spec_float product /\
  Js.div (Js.mul (Js.parseFloat "1.025") (Js.Num 60)) (Js.Num 3) =
    of_spec_float (SFdiv 53 1024 product (spec_int 3)) /\
  Js.parseFloat "0.1" =
    of_spec_float (SFdiv 53 1024 (spec_int 1) (spec_int 10)) /\
  Js.parseFloat "9007199254740993" =
    of_spec_float (SFdiv 53 1024 (spec_int 9007199254740993) (spec_int 1)) /\
  Js.parseFloat "9007199254740993" = Js.Num 9007199254740992 /\
  Js.parseFloat "9007199254740995" = Js.Num 9007199254740996 /\
  Js.parseFloat (nines 308) =
    of_spec_float (SFdiv 53 1024 (spec_int (10 ^ 308 - 1)) (spec_int 1)) /\
  Js.parseFloat (nines 309) =
    of_spec_float (SFdiv 53 1024 (spec_int (10 ^ 309 - 1)) (spec_int 1)) /\
  Js.parseFloat (nines 309) = Js.Infinity /\
  Js.div (Js.Num 1) (Js.parseFloat (nines 308)) = of_spec_float tiny /\
  Js.mul (Js.div (Js.Num 1) (Js.parseFloat (nines 308)))
         (Js.div (Js.Num 1) (Js.parseFloat (nines 308))) =
    of_spec_float (SFmul 53 1024 tiny tiny) /\
  of_spec_float (SFmul 53 1024 tiny tiny) = Js.Num 0 /\
  Js.truthy (of_spec_float tiny) = true.
Proof. vm_compute. repeat split. Qed.

(** ** Truthiness and arithmetic *)

Lemma truthy_Num (v : Js.value) :
  Js.truthy v = true ->
  (exists q, v = Js.Num q /\ ~ (q == 0)%Q) \/ exists s, v = Js.Inf s.
Proof.
  destruct v as [| | |q|s]; simpl; try discriminate; intros H.
  - left. exists q. split; [reflexivity|]. unfold Qeq. simpl.
    destruct (Z.eqb_spec (Qnum q) 0); [discriminate|lia].
  - right. exists s. reflexivity.
Qed.

Lemma truthy_nonzero (q : Q) : ~ (q == 0)%Q -> Js.truthy (Js.Num q) = true.
Proof.
  unfold Qeq. simpl. intros H. destruct (Z.eqb_spec (Qnum q) 0); [lia|reflexivity].
Qed.

Lemma falsy_zero (q : Q) : (q == 0)%Q -> Js.truthy (Js.Num q) = false.
Proof.
  unfold Qeq. simpl. intros H. destruct (Z.eqb_spec (Qnum q) 0); [reflexivity|lia].
Qed.

Lemma estimateGroceries_truthy (v : Js.value) :
  Js.truthy v = true ->
  estimateGroceries v =
  Js.Math_round (Js.div (Js.mul v (Js.Num 60)) (Js.Num 3)).
Proof. intros H. unfold estimateGroceries. rewrite H. reflexivity. Qed.

Lemma estimateEntertainment_truthy (v : Js.value) :
  Js.truthy v = true ->
  estimateEntertainment v = Js.Math_round (Js.mul v (Js.Num 10)).
Proof. intros H. unfold estimateEntertainment, Js.or. rewrite H. reflexivity. Qed.

Lemma estimateGroceries_falsy (v : Js.value) :
  Js.truthy v = false -> estimateGroceries v = Js.Num 400.
Proof. intros H. unfold estimateGroceries. rewrite H. reflexivity. Qed.

Lemma estimateEntertainment_falsy (v : Js.value) :
  Js.truthy v = false -> estimateEntertainment v = Js.Num 150.
Proof. intros H. unfold estimateEntertainment, Js.or. rewrite H. reflexivity. Qed.

(** A product or quotient of whole numbers that stays below [2 ^ 53] is
    exact. *)
Lemma mul_whole (a b : Z) :
  (0 < a * b < 2 ^ 53)%Z ->
  Js.mul (Js.Num (inject_Z a)) (Js.Num (inject_Z b)) = Js.Num (inject_Z (a * b)).
Proof.
  intros H. unfold Js.mul. cbn [Js.to_number].
  apply nearest_double_whole; [exact H|]. simpl. lia.
Qed.

Lemma div_whole (k d : Z) :
  (0 < k < 2 ^ 53)%Z -> (0 < d)%Z ->
  Js.div (Js.Num (inject_Z (k * d))) (Js.Num (inject_Z d)) = Js.Num (inject_Z k).
Proof.
  intros Hk Hd. unfold Js.div. cbn [Js.to_number]. unfold Js.is_zero.
  cbn [inject_Z Qnum]. destruct (Z.eqb_spec d 0) as [E|_]; [lia|].
  apply nearest_double_whole; [exact Hk|].
  destruct d as [|d|d]; try lia. simpl. lia.
Qed.

(** ** The estimator *)

(** C6, as amended: for every known meal price other than 0 the groceries
    estimate is Math.round((m * 60) / 3) and the entertainment estimate is
    Math.round(m * 10), where the product and the quotient are the doubles
    that the code computes; for a whole price up to 150119987579016 they are
    exactly 20 and 10 times the price.  Without a meal price the estimates
    are 400 and Math.round(15 * 10) = 150. *)
Theorem estimates_from_meal (m : Q) :
  ~ (m == 0)%Q ->
  estimateGroceries (Js.Num m) =
    Js.Math_round (Js.div (Js.mul (Js.Num m) (Js.Num 60)) (Js.Num 3)) /\
  estimateEntertainment (Js.Num m) =
    Js.Math_round (Js.mul (Js.Num m) (Js.Num 10)) /\
  (forall z : Z, m = inject_Z z -> (0 < z <= 150119987579016)%Z ->
     estimateGroceries (Js.Num m) = Js.Num (inject_Z (20 * z)) /\
     estimateEntertainment (Js.Num m) = Js.Num (inject_Z (10 * z))) /\
  estimateGroceries Js.Undefined = Js.Num 400 /\
  estimateEntertainment Js.Undefined =
    Js.Math_round (Js.mul (Js.Num 15) (Js.Num 10)) /\
  Js.Math_round (Js.mul (Js.Num 15) (Js.Num 10)) = Js.Num 150.
Proof.
  intros H. pose proof (truthy_nonzero m H) as T.
  split; [exact (estimateGroceries_truthy _ T)|].
  split; [exact (estimateEntertainment_truthy _ T)|].
  split; [|repeat split].
  intros z -> Hz.
  rewrite (estimateGroceries_truthy _ T), (estimateEntertainment_truthy _ T).
  change (Js.Num 60) with (Js.Num (inject_Z 60)).
  change (Js.Num 10) with (Js.Num (inject_Z 10)).
  change (Js.Num 3) with (Js.Num (inject_Z 3)).
  change (2 ^ 53)%Z with 9007199254740992%Z in *.
  rewrite !mul_whole by (change (2 ^ 53)%Z with 9007199254740992%Z; lia).
  replace (z * 60)%Z with (20 * z * 3)%Z by lia.
  rewrite div_whole by (change (2 ^ 53)%Z with 9007199254740992%Z; lia).
  unfold Js.Math_round. cbn [Js.to_number]. rewrite !round_inject_Z.
  split; [reflexivity|]. f_equal. f_equal. lia.
Qed.

Lemma estimates_from_meal_witness :
  estimateGroceries (Js.Num 18) = Js.Num 360 /\
  estimateEntertainment (Js.Num 18) = Js.Num 180.
Proof.
  assert (H : ~ (18 == 0)%Q) by (intros E; discriminate E).
  destruct (estimates_from_meal 18 H) as (_ & _ & W & _).
  apply (W 18%Z); [reflexivity|lia].
Defined.

(** The estimate is made in doubles: the price read from "1.025" times 60 is
    61.49999999999999, a third of it is below 20.5, and the estimate is 20,
    where the exact product and quotient would give 20.5 and so 21. *)
Example estimateGroceries_in_doubles :
  estimateGroceries (Js.parseFloat "1.025") = Js.Num 20 /\
  Js.round ((1025 # 1000) * 60 / 3)%Q = 21%Z.
Proof. vm_compute. split; reflexivity. Qed.

(** C6, as stated, fails at the meal price 0: the estimates are the defaults
    400 and 150, not round(0 * 60 / 3) = 0 and round(0 * 10) = 0. *)
Lemma estimates_at_zero_meal :
  estimateGroceries (Js.Num 0) = Js.Num 400 /\
  estimateGroceries (Js.Num 0) <> Js.Num (inject_Z (Js.round (0 * 60 / 3))) /\
  estimateEntertainment (Js.Num 0) = Js.Num 150 /\
  estimateEntertainment (Js.Num 0) <> Js.Num (inject_Z (Js.round (0 * 10))).
Proof. vm_compute. repeat split; discriminate. Qed.

(** ** The price parser *)

(** When the only run of digits and points in the cleaned text is a lone
    point, the pattern still matches and parseFloat yields NaN. *)
Lemma parsePrice_lone_point (text : string) :
  first_run (Js.trim (Js.remove_all comma_or_dollar text)) = Some "." ->
  parsePrice text = Js.NaN.
Proof.
  intros H. unfold parsePrice. destruct text as [|c text].
  - discriminate H.
  - cbn [Js.is_empty]. cbv zeta. rewrite H. reflexivity.
Qed.

(** C4: on "." the pattern finds the run ".", parseFloat turns it into NaN,
    and parsePrice returns this NaN instead of the no-value result (null), as
    it also does when currency signs surround the point.  NaN being falsy, the
    scanner then drops the row. *)
Theorem parsePrice_point_is_NaN :
  first_run (Js.trim (Js.remove_all comma_or_dollar ".")) = Some "." /\
  parsePrice "." = Js.NaN /\
  parsePrice "." <> Js.Null /\
  parsePrice "$ ." = Js.NaN /\
  parsePrice "" = Js.Null /\
  parsePrice "N/A" = Js.Null /\
  Js.truthy (parsePrice ".") = false.
Proof. repeat split. discriminate. Qed.

(** ** The table scan *)


(** The two loops visit the rows of all tables in document order. *)
Lemma scan_flat (tables : Document) (data : ScrapeData) :
  fold_left scanTable tables data = fold_left scanRow (concat tables) data.
Proof.
  revert data. induction tables as [|t tables IH]; intros data; simpl.
  - reflexivity.
  - rewrite IH. unfold scanTable. symmetry. apply fold_left_app.
Qed.







(** A row that does not hand a price to [key] leaves that entry alone. *)
Lemma scanRow_other_key (data : ScrapeData) (row : Row) (key : string) :
  (forall p, ~ classifiedRow row key p) ->
  categories (scanRow data row) !! key = categories data !! key.
Proof.
  intros Hno. unfold scanRow. destruct row as [|c0 [|c1 rest]]; try reflexivity.
  destruct (negb (Js.is_empty (Js.trim c0))) eqn:HL; simpl; [|reflexivity].
  destruct (Js.truthy (parsePrice (Js.trim c1))) eqn:HP; [|reflexivity].
  destruct (classify (Js.trim c0)) as [k|] eqn:HC; [|reflexivity].
  simpl. destruct (decide (k = key)) as [->|Hne].
  - exfalso. apply (Hno (parsePrice (Js.trim c1))).
    exists c0, c1, rest. apply negb_true_iff in HL. repeat split; assumption.
  - apply lookup_insert_ne. exact Hne.
Qed.

Lemma scanRows_other_key (rows : list Row) (data : ScrapeData) (key : string) :
  (forall row p, In row rows -> ~ classifiedRow row key p) ->
  categories (fold_left scanRow rows data) !! key = categories data !! key.
Proof.
  revert data. induction rows as [|row rows IH]; intros data Hno; simpl.
  - reflexivity.
  - rewrite IH.
    + apply scanRow_other_key. intros p. apply Hno. left. reflexivity.
    + intros r p Hr. apply Hno. right. exact Hr.
Qed.

Lemma scanRow_classified (data : ScrapeData) (row : Row) (key : string)
    (p : Js.value) :
  classifiedRow row key p -> categories (scanRow data row) !! key = Some p.
Proof.
  intros (c0 & c1 & rest & -> & HL & HP & HT & HC). unfold scanRow.
  rewrite HL, HP, HT, HC. simpl. apply lookup_insert_eq.
Qed.

(** C8: when two kept rows of one scan, in document order, classify to the
    same key, and no row after the second one does, the category map ends with
    the price of the second; a key has at most one value. *)
Theorem scan_last_match_wins (tables : Document) (pre mid post : list Row)
    (r1 r2 : Row) (key : string) (p1 p2 : Js.value) :
  concat tables = pre ++ r1 :: mid ++ r2 :: post ->
  classifiedRow r1 key p1 ->
  classifiedRow r2 key p2 ->
  (forall row p, In row post -> ~ classifiedRow row key p) ->
  categories (scanTables tables) !! key = Some p2 /\
  forall v v' : Js.value,
    categories (scanTables tables) !! key = Some v ->
    categories (scanTables tables) !! key = Some v' -> v = v'.
Proof.
  intros E H1 H2 Hpost.
  assert (L : categories (scanTables tables) !! key = Some p2).
  { unfold scanTables. rewrite scan_flat, E.
    rewrite fold_left_app. cbn [fold_left]. rewrite fold_left_app.
    cbn [fold_left].
    rewrite (scanRows_other_key post _ key Hpost).
    apply scanRow_classified, H2. }
  split; [exact L|]. intros v v' Hv Hv'. congruence.
Qed.

Lemma scan_last_match_wins_witness :
  categories (scanTables
    [[["Monthly Pass (Regular Price)"; "70.00 $"]];
     [["Public transport, one-way"; "2.50 $"]; ["Gasoline"; "1.10 $"]]])
    !! "transportation" = Some (Js.Num (5 # 2)).
Proof.
  refine (proj1 (scan_last_match_wins _ [] [] [["Gasoline"; "1.10 $"]]
                   ["Monthly Pass (Regular Price)"; "70.00 $"]
                   ["Public transport, one-way"; "2.50 $"]
                   "transportation" (Js.Num 70) (Js.Num (5 # 2))
                   _ _ _ _)).
  - reflexivity.
  - eexists _, _, _. repeat split.
  - eexists _, _, _. repeat split.
  - intros row p [<-|[]] (c0 & c1 & rest & E & _ & _ & _ & HC).
    injection E as <- <- <-. vm_compute in HC. discriminate HC.
Defined.

(** ** The response *)

(** C7: when the page gives the city-centre rent as a text of 309 digits,
    the price read overflows to Infinity; the handler still answers with a
    result, and the city-centre amount of that result is Infinity, which is
    no whole number and which JSON prints as null.  A text of 308 digits is
    still read as a finite number. *)
Theorem overflowing_price_sent_as_null (posts : list RedditPost)
    (today : string) :
  let fetch := fun _ : string =>
    Some [[["Apartment (1 bedroom) in City Centre"; nines 309]]] in
  parsePrice (nines 309) = Js.Infinity /\
  Js.json_number (parsePrice (nines 308)) <> None /\
  exists body,
    handler "Atlantis" fetch posts today = Ok body /\
    housing_cityCenter body = Js.Infinity /\
    ~ is_amount (housing_cityCenter body) /\
    Js.json_number (housing_cityCenter body) = None /\
    housing_outside body = Js.Num 800 /\
    food_monthly body = Js.Num 400 /\
    transportation_monthly body = Js.Num 70 /\
    utilities_monthly body = Js.Num 150 /\
    entertainment_monthly body = Js.Num 150.
Proof.
  intros fetch. split; [vm_compute; reflexivity|].
  split; [vm_compute; discriminate|].
  eexists. split; [vm_compute; reflexivity|].
  cbn [housing_cityCenter housing_outside food_monthly transportation_monthly
       utilities_monthly entertainment_monthly].
  split; [reflexivity|]. split; [intros [z H]; discriminate H|].
  repeat split.
Qed.

(** Reading a property that holds 0 and reading one that was deleted cannot be
    told apart by a function that is blind to the falsy values. *)
Lemma get_zero_like_missing {A : Type} (f : Js.value -> A)
    (fd : gmap string Js.value) (key k : string) (q : Q) :
  (forall v v', Js.truthy v = false -> Js.truthy v' = false -> f v = f v') ->
  (q == 0)%Q ->
  f (get (<[key := Js.Num q]> fd) k) = f (get (delete key fd) k).
Proof.
  intros Hf Hq. unfold get. destruct (decide (key = k)) as [->|Hne].
  - rewrite lookup_insert_eq, lookup_delete_eq. simpl.
    apply Hf; [apply falsy_zero, Hq|reflexivity].
  - rewrite lookup_insert_ne, lookup_delete_ne by exact Hne. reflexivity.
Qed.

Lemma or_blind (d v v' : Js.value) :
  Js.truthy v = false -> Js.truthy v' = false -> Js.or v d = Js.or v' d.
Proof. intros H H'. unfold Js.or. rewrite H, H'. reflexivity. Qed.

Lemma estimateGroceries_blind (v v' : Js.value) :
  Js.truthy v = false -> Js.truthy v' = false ->
  estimateGroceries v = estimateGroceries v'.
Proof.
  intros H H'. rewrite (estimateGroceries_falsy v H).
  rewrite (estimateGroceries_falsy v' H'). reflexivity.
Qed.

Lemma estimateEntertainment_blind (v v' : Js.value) :
  Js.truthy v = false -> Js.truthy v' = false ->
  estimateEntertainment v = estimateEntertainment v'.
Proof.
  intros H H'. rewrite (estimateEntertainment_falsy v H).
  rewrite (estimateEntertainment_falsy v' H'). reflexivity.
Qed.

Lemma compile_zero_like_missing (cityName : string)
    (fd : gmap string Js.value) (numbeoData : option ScrapeData)
    (posts : list RedditPost) (today key : string) (q : Q) :
  (q == 0)%Q ->
  compile cityName (<[key := Js.Num q]> fd) numbeoData posts today =
  compile cityName (delete key fd) numbeoData posts today.
Proof.
  intros Hq. unfold compile.
  rewrite (get_zero_like_missing estimateGroceries fd key _ q
             estimateGroceries_blind Hq).
  rewrite (get_zero_like_missing estimateEntertainment fd key _ q
             estimateEntertainment_blind Hq).
  rewrite (get_zero_like_missing (fun v => Js.or v (Js.Num 1200)) fd key _ q
             (or_blind _) Hq).
  rewrite (get_zero_like_missing (fun v => Js.or v (Js.Num 800)) fd key _ q
             (or_blind _) Hq).
  rewrite (get_zero_like_missing (fun v => Js.or v (Js.Num 70)) fd key _ q
             (or_blind _) Hq).
  rewrite (get_zero_like_missing (fun v => Js.or v (Js.Num 150)) fd key _ q
             (or_blind _) Hq).
  reflexivity.
Qed.

Lemma or_zero_default (fd : gmap string Js.value) (key : string) (q : Q)
    (d : Js.value) :
  (q == 0)%Q -> Js.or (get (<[key := Js.Num q]> fd) key) d = d.
Proof.
  intros Hq. unfold get, Js.or. rewrite lookup_insert_eq. simpl default.
  rewrite (falsy_zero q Hq). reflexivity.
Qed.

(** C10: a category of the data source that holds the number 0 is treated
    exactly like a missing one: the response is the one obtained without the
    property, so the output carries the default of the field (1200, 800, 70,
    150), and a meal price of 0 gives groceries 400 and entertainment 150. *)
Theorem zero_is_treated_as_missing (cityName : string)
    (finalData : gmap string Js.value) (numbeoData : option ScrapeData)
    (posts : list RedditPost) (today : string) (q : Q) :
  (q == 0)%Q ->
  (forall key, In key categoryKeys ->
     compile cityName (<[key := Js.Num q]> finalData) numbeoData posts today =
     compile cityName (delete key finalData) numbeoData posts today) /\
  housing_cityCenter
    (compile cityName (<["housingCenter" := Js.Num q]> finalData)
       numbeoData posts today) = Js.Num 1200 /\
  housing_outside
    (compile cityName (<["housingOutside" := Js.Num q]> finalData)
       numbeoData posts today) = Js.Num 800 /\
  transportation_monthly
    (compile cityName (<["transportation" := Js.Num q]> finalData)
       numbeoData posts today) = Js.Num 70 /\
  utilities_monthly
    (compile cityName (<["utilities" := Js.Num q]> finalData)
       numbeoData posts today) = Js.Num 150 /\
  food_monthly
    (compile cityName (<["mealRestaurant" := Js.Num q]> finalData)
       numbeoData posts today) = Js.Num 400 /\
  entertainment_monthly
    (compile cityName (<["mealRestaurant" := Js.Num q]> finalData)
       numbeoData posts today) = Js.Num 150.
Proof.
  intros Hq. split.
  { intros key _. apply compile_zero_like_missing, Hq. }
  unfold compile. cbn [housing_cityCenter housing_outside food_monthly
    transportation_monthly utilities_monthly entertainment_monthly].
  rewrite !(or_zero_default _ _ q _ Hq).
  assert (F : Js.truthy (get (<["mealRestaurant" := Js.Num q]> finalData)
                           "mealRestaurant") = false).
  { unfold get. rewrite lookup_insert_eq. apply falsy_zero, Hq. }
  rewrite (estimateGroceries_falsy _ F), (estimateEntertainment_falsy _ F).
  repeat split.
Qed.

Lemma zero_is_treated_as_missing_witness :
  housing_cityCenter
    (compile "Paris" (<["housingCenter" := Js.Num (0 # 100)]> ∅) None [] "")
  = Js.Num 1200.
Proof.
  assert (H : (0 # 100 == 0)%Q) by reflexivity.
  exact (proj1 (proj2 (zero_is_treated_as_missing "Paris" ∅ None [] ""
                         (0 # 100) H))).
Defined.

(** ** The slug *)

Example citySlug_los_angeles : citySlug "Los Angeles, CA" = "Los-Angeles".
Proof. reflexivity. Qed.

Example citySlug_mountain_view : citySlug "Mountain View" = "Mountain-View".
Proof. reflexivity. Qed.

Example citySlug_no_state : citySlug "St. John's, CANADA" = "St-Johns".
Proof. reflexivity. Qed.

(** ** The fallback table *)

Lemma remove_all_chars (cls : ascii -> bool) (s : string) (c : ascii) :
  In c (list_ascii_of_string (Js.remove_all cls s)) ->
  cls c = false /\ In c (list_ascii_of_string s).
Proof.
  induction s as [|x s IH]; simpl; [intros []|].
  destruct (cls x) eqn:Hx.
  - intros H. destruct (IH H) as [Hc Hin]. split; [exact Hc|right; exact Hin].
  - simpl. intros [<-|H].
    + split; [exact Hx|left; reflexivity].
    + destruct (IH H) as [Hc Hin]. split; [exact Hc|right; exact Hin].
Qed.

(** A key computed from a request holds neither white space nor a comma. *)
Lemma cityKey_chars (cityName : string) (c : ascii) :
  In c (list_ascii_of_string (cityKey cityName)) ->
  Js.is_space c = false /\ c <> ","%char.
Proof.
  unfold cityKey. intros H.
  destruct (remove_all_chars _ _ _ H) as [Hcomma H'].
  destruct (remove_all_chars _ _ _ H') as [Hspace _].
  split; [exact Hspace|]. intros ->. discriminate Hcomma.
Qed.

(** So the entry registered under "los angeles, ca" answers no request. *)
Lemma los_angeles_ca_entry_unreachable (cityName : string) :
  cityKey cityName <> "los angeles, ca".
Proof.
  intros E.
  assert (H : In " "%char (list_ascii_of_string (cityKey cityName))).
  { rewrite E. simpl. tauto. }
  destruct (cityKey_chars _ _ H) as [Hs _]. discriminate Hs.
Qed.

(** C1: the key is the lower-cased input with white space and commas taken
    out, so that it holds neither, and "Los Angeles" resolves; "Los Angeles,
    CA" yields the key "losangelesca", which the table lacks although it lists
    "los angeles, ca", so that this input does not resolve. *)
Theorem fallback_los_angeles_with_state :
  (forall cityName c,
     In c (list_ascii_of_string (cityKey cityName)) ->
     Js.is_space c = false /\ c <> ","%char) /\
  cityKey "Los Angeles" = "losangeles" /\
  getFallbackData "Los Angeles" = Registered (mkFallback 2500 1800 18 100 140) /\
  cityKey "Los Angeles, CA" = "losangelesca" /\
  fallbackCities !! "losangelesca" = None /\
  fallbackCities !! "los angeles, ca" = Some (mkFallback 2500 1800 18 100 140) /\
  fallbackCities !! "mountainviewca" = Some (mkFallback 3200 2600 18 100 120) /\
  getFallbackData "Los Angeles, CA" = NoFallback.
Proof.
  split; [exact cityKey_chars|]. vm_compute. repeat split.
Qed.

(** ** The handler *)

(** C2: a scrape that returns rows but no housingCenter sends the handler to
    the fallback record, whose numbers fill the response, and the response
    still names the live source. *)
Theorem fallback_numbers_marked_live (posts : list RedditPost) (today : string) :
  let fetch := fun _ : string => Some [[["Gasoline (1 liter)"; "1.50 $"]]] in
  (exists data, scrapeNumbeo fetch "London" = Some data /\
                categories data !! "housingCenter" = None) /\
  getFallbackData "London" = Registered (mkFallback 2200 1600 18 165 200) /\
  exists body,
    handler "London" fetch posts today = Ok body /\
    housing_cityCenter body = Js.Num 2200 /\
    housing_outside body = Js.Num 1600 /\
    food_monthly body = Js.Num 360 /\
    transportation_monthly body = Js.Num 165 /\
    utilities_monthly body = Js.Num 200 /\
    entertainment_monthly body = Js.Num 180 /\
    sources body = liveSources /\
    sources body <> estimatedSources.
Proof.
  intros fetch. split; [|split].
  - eexists. split; reflexivity.
  - reflexivity.
  - eexists. split; [reflexivity|]. repeat split. discriminate.
Qed.

(** The source list of a result only tells whether the scrape returned an
    object. *)
Lemma sources_follow_scrape (cityName : string)
    (fetch : string -> option Document) (posts : list RedditPost)
    (today : string) (body : CostResult) :
  handler cityName fetch posts today = Ok body ->
  sources body =
  match scrapeNumbeo fetch cityName with
  | Some _ => liveSources
  | None => estimatedSources
  end.
Proof.
  unfold handler.
  destruct (chooseData cityName (scrapeNumbeo fetch cityName)); [|discriminate].
  intros [= <-]. reflexivity.
Qed.

(** What the handler does when the table and the inherited names both miss. *)
Lemma handler_not_found (cityName : string)
    (fetch : string -> option Document) (posts : list RedditPost)
    (today : string) :
  (forall data, scrapeNumbeo fetch cityName = Some data ->
                Js.truthy (get (categories data) "housingCenter") = false) ->
  getFallbackData cityName = NoFallback ->
  handler cityName fetch posts today = Status404 (notFound cityName) /\
  suggestion (notFound cityName) <> "" /\
  tip (notFound cityName) <> "".
Proof.
  intros Hs Hf. unfold handler, chooseData.
  destruct (scrapeNumbeo fetch cityName) as [data|] eqn:E.
  - rewrite (Hs data eq_refl), Hf. split; [reflexivity|].
    unfold notFound. cbn [suggestion tip].
    destruct (Js.includes _ _); split; discriminate.
  - rewrite Hf. split; [reflexivity|].
    unfold notFound. cbn [suggestion tip].
    destruct (Js.includes _ _); split; discriminate.
Qed.

(** C9: for the input "constructor" the scrape gives nothing and the key is
    not registered, yet the lookup finds the member that every object
    inherits, and the handler answers with a result made of the defaults
    instead of the not-found error. *)
Theorem inherited_name_is_not_rejected (posts : list RedditPost) (today : string) :
  scrapeNumbeo (fun _ => None) "constructor" = None /\
  fallbackCities !! cityKey "constructor" = None /\
  getFallbackData "constructor" = Builtin "constructor" /\
  handler "constructor" (fun _ => None) posts today <> Status404 (notFound "constructor") /\
  exists body,
    handler "constructor" (fun _ => None) posts today = Ok body /\
    housing_cityCenter body = Js.Num 1200 /\
    housing_outside body = Js.Num 800 /\
    food_monthly body = Js.Num 400 /\
    transportation_monthly body = Js.Num 70 /\
    utilities_monthly body = Js.Num 150 /\
    entertainment_monthly body = Js.Num 150 /\
    sources body = estimatedSources.
Proof.
  split; [reflexivity|]. split; [reflexivity|]. split; [reflexivity|].
  split; [discriminate|].
  eexists. split; [reflexivity|]. repeat split.
Qed.

(** ** Facts about single characters *)

Lemma all_ascii_complete (c : ascii) : In c all_ascii.
Proof.
  unfold all_ascii. rewrite <- (ascii_nat_embedding c). apply in_map.
  apply in_seq. split; [lia|]. simpl. apply nat_ascii_bounded.
Qed.

(** A boolean property of characters holds as soon as it holds on the 256 of
    them. *)
Lemma by_all_ascii (P : ascii -> bool) :
  forallb P all_ascii = true -> forall c, P c = true.
Proof.
  intros H c. rewrite forallb_forall in H. apply H, all_ascii_complete.
Qed.

Lemma by_all_ascii2 (P : ascii -> ascii -> bool) :
  forallb (fun a => forallb (P a) all_ascii) all_ascii = true ->
  forall a b, P a b = true.
Proof.
  intros H a b.
  apply (by_all_ascii (P a)). apply (by_all_ascii _ H a).
Qed.

Ltac all_chars c P :=
  let H := fresh in
  pose proof (by_all_ascii P ltac:(vm_compute; reflexivity) c) as H;
  cbv beta in H.

Lemma digit_or_point_kept (c : ascii) :
  digit_or_point c = true -> comma_or_dollar c = false /\ Js.is_space c = false.
Proof.
  all_chars c (fun c => implb (digit_or_point c)
                          (negb (comma_or_dollar c) && negb (Js.is_space c))).
  intros D. rewrite D in H. simpl in H. apply andb_true_iff in H.
  destruct H as [H1 H2]. apply negb_true_iff in H1, H2. split; assumption.
Qed.

Lemma lower_char_idem (c : ascii) : Js.lower_char (Js.lower_char c) = Js.lower_char c.
Proof.
  all_chars c (fun c => Ascii.eqb (Js.lower_char (Js.lower_char c)) (Js.lower_char c)).
  apply Ascii.eqb_eq, H.
Qed.

Lemma lower_char_not_upper (c : ascii) : Js.is_upper (Js.lower_char c) = false.
Proof.
  all_chars c (fun c => negb (Js.is_upper (Js.lower_char c))).
  apply negb_true_iff, H.
Qed.

Lemma lower_char_space (c : ascii) : Js.is_space (Js.lower_char c) = Js.is_space c.
Proof.
  all_chars c (fun c => Bool.eqb (Js.is_space (Js.lower_char c)) (Js.is_space c)).
  apply eqb_prop, H.
Qed.

Lemma lower_char_comma (c : ascii) :
  Ascii.eqb "," (Js.lower_char c) = Ascii.eqb "," c.
Proof.
  all_chars c (fun c => Bool.eqb (Ascii.eqb "," (Js.lower_char c)) (Ascii.eqb "," c)).
  apply eqb_prop, H.
Qed.

Lemma lower_char_line (c : ascii) :
  Js.is_line_terminator (Js.lower_char c) = Js.is_line_terminator c.
Proof.
  all_chars c (fun c => Bool.eqb (Js.is_line_terminator (Js.lower_char c))
                          (Js.is_line_terminator c)).
  apply eqb_prop, H.
Qed.

Lemma canon_ascii (a : ascii) :
  (Js.code a <? 128)%nat = true -> (Js.code (Js.canon a) <? 128)%nat = true.
Proof.
  all_chars a (fun a => implb (Js.code a <? 128)%nat
                          (Js.code (Js.canon a) <? 128)%nat).
  intros Ha. rewrite Ha in H. exact H.
Qed.

Lemma canon_lower_char (x : ascii) :
  Js.canon (Js.lower_char x) = Js.canon x \/
  (Js.code (Js.canon (Js.lower_char x)) <? 128)%nat = false /\
  (Js.code (Js.canon x) <? 128)%nat = false.
Proof.
  all_chars x (fun x =>
    Ascii.eqb (Js.canon (Js.lower_char x)) (Js.canon x)
    || negb (Js.code (Js.canon (Js.lower_char x)) <? 128)%nat
       && negb (Js.code (Js.canon x) <? 128)%nat).
  apply orb_true_iff in H. destruct H as [H|H].
  - left. apply Ascii.eqb_eq, H.
  - right. apply andb_true_iff in H. destruct H as [H1 H2].
    apply negb_true_iff in H1, H2. split; assumption.
Qed.

(** Lower-casing the text does not change what an ASCII pattern character
    accepts. *)
Lemma lower_char_same_ci (a x : ascii) :
  (Js.code a <? 128)%nat = true ->
  Js.same_char_ci a (Js.lower_char x) = Js.same_char_ci a x.
Proof.
  intros Ha. unfold Js.same_char_ci.
  destruct (canon_lower_char x) as [->|[H1 H2]]; [reflexivity|].
  pose proof (canon_ascii a Ha) as Hc.
  destruct (Ascii.eqb_spec (Js.canon a) (Js.canon (Js.lower_char x))) as [E|_];
    [rewrite E in Hc; congruence|].
  destruct (Ascii.eqb_spec (Js.canon a) (Js.canon x)) as [E|_];
    [rewrite E in Hc; congruence|].
  reflexivity.
Qed.

(** ** Facts about strings *)

Lemma toLowerCase_chars (s : string) :
  list_ascii_of_string (Js.toLowerCase s) =
  map Js.lower_char (list_ascii_of_string s).
Proof. induction s as [|c s IH]; simpl; [reflexivity|]. rewrite IH. reflexivity. Qed.

Lemma toLowerCase_idem (s : string) :
  Js.toLowerCase (Js.toLowerCase s) = Js.toLowerCase s.
Proof.
  induction s as [|c s IH]; simpl; [reflexivity|].
  rewrite lower_char_idem, IH. reflexivity.
Qed.

Lemma remove_all_idem (cls : ascii -> bool) (s : string) :
  Js.remove_all cls (Js.remove_all cls s) = Js.remove_all cls s.
Proof.
  induction s as [|c s IH]; simpl; [reflexivity|].
  destruct (cls c) eqn:E; simpl; [exact IH|]. rewrite E, IH. reflexivity.
Qed.

Lemma remove_all_comm (f g : ascii -> bool) (s : string) :
  Js.remove_all f (Js.remove_all g s) = Js.remove_all g (Js.remove_all f s).
Proof.
  induction s as [|c s IH]; simpl; [reflexivity|].
  destruct (g c) eqn:G, (f c) eqn:F; simpl; rewrite ?G, ?F, IH; reflexivity.
Qed.

Lemma remove_all_lower (cls : ascii -> bool) (s : string) :
  (forall c, cls (Js.lower_char c) = cls c) ->
  Js.remove_all cls (Js.toLowerCase s) = Js.toLowerCase (Js.remove_all cls s).
Proof.
  intros H. induction s as [|c s IH]; simpl; [reflexivity|].
  rewrite H. destruct (cls c); simpl; rewrite IH; reflexivity.
Qed.

Lemma remove_all_keeps (cls : ascii -> bool) (s : string) (c : ascii) :
  In c (list_ascii_of_string s) -> cls c = false ->
  In c (list_ascii_of_string (Js.remove_all cls s)).
Proof.
  intros Hin Hc. induction s as [|x s IH]; simpl in *; [exact Hin|].
  destruct Hin as [->|Hin].
  - rewrite Hc. left. reflexivity.
  - destruct (cls x); [|right]; apply IH, Hin.
Qed.

Lemma remove_all_append (cls : ascii -> bool) (a b : string) :
  Js.remove_all cls (a +:+ b) = Js.remove_all cls a +:+ Js.remove_all cls b.
Proof.
  induction a as [|c a IH]; simpl; [reflexivity|].
  destruct (cls c); simpl; rewrite IH; reflexivity.
Qed.

Lemma trim_start_chars (s : string) (c : ascii) :
  In c (list_ascii_of_string (Js.trim_start s)) -> In c (list_ascii_of_string s).
Proof.
  induction s as [|x s IH]; simpl; [tauto|].
  destruct (Js.is_space x); simpl; [right; apply IH; assumption|tauto].
Qed.

Lemma trim_start_keeps (s : string) (c : ascii) :
  In c (list_ascii_of_string s) -> Js.is_space c = false ->
  In c (list_ascii_of_string (Js.trim_start s)).
Proof.
  intros Hin Hc. induction s as [|x s IH]; simpl in *; [exact Hin|].
  destruct (Js.is_space x) eqn:E.
  - destruct Hin as [->|Hin]; [congruence|]. apply IH, Hin.
  - exact Hin.
Qed.

Lemma trim_end_chars (s : string) (c : ascii) :
  In c (list_ascii_of_string (Js.trim_end s)) -> In c (list_ascii_of_string s).
Proof.
  induction s as [|x s IH]; simpl; [tauto|].
  destruct (Js.trim_end s) as [|y t] eqn:E.
  - destruct (Js.is_space x); simpl; [tauto|]. intros [->|[]]. left. reflexivity.
  - simpl. intros [->|H]; [left; reflexivity|right; apply IH; exact H].
Qed.

Lemma trim_end_keeps (s : string) (c : ascii) :
  In c (list_ascii_of_string s) -> Js.is_space c = false ->
  In c (list_ascii_of_string (Js.trim_end s)).
Proof.
  intros Hin Hc. induction s as [|x s IH]; simpl in *; [exact Hin|].
  destruct Hin as [->|Hin].
  - destruct (Js.trim_end s); [rewrite Hc|]; left; reflexivity.
  - specialize (IH Hin). destruct (Js.trim_end s) as [|y t]; [destruct IH|].
    right. exact IH.
Qed.

Lemma trim_chars (s : string) (c : ascii) :
  In c (list_ascii_of_string (Js.trim s)) -> In c (list_ascii_of_string s).
Proof. intros H. apply trim_start_chars, trim_end_chars, H. Qed.

Lemma trim_keeps (s : string) (c : ascii) :
  In c (list_ascii_of_string s) -> Js.is_space c = false ->
  In c (list_ascii_of_string (Js.trim s)).
Proof.
  intros Hin Hc. apply trim_end_keeps; [|exact Hc].
  apply trim_start_keeps; assumption.
Qed.

(** ** More on the price parser *)

Lemma first_run_none (s : string) :
  first_run s = None <->
  forall c, In c (list_ascii_of_string s) -> digit_or_point c = false.
Proof.
  induction s as [|x s IH].
  - simpl. split; [intros _ c []|reflexivity].
  - cbn [first_run]. destruct (digit_or_point x) eqn:E.
    + split; [discriminate|]. intros H.
      rewrite (H x) in E; [discriminate|left; reflexivity].
    + rewrite IH. simpl. split.
      * intros H c [<-|Hc]; [exact E|apply H, Hc].
      * intros H c Hc. apply H. right. exact Hc.
Qed.

Lemma read_digits_nonneg (s : string) (acc : Z) (n : nat) :
  (0 <= acc)%Z -> (0 <= fst (fst (Js.read_digits s acc n)))%Z.
Proof.
  revert acc n. induction s as [|c s IH]; intros acc n H; simpl; [exact H|].
  destruct (Js.is_digit c); simpl; [|exact H].
  apply IH. unfold Js.digit_val. lia.
Qed.

(** parseFloat gives NaN, a number that is not negative, or Infinity. *)
Lemma parseFloat_shape (s : string) :
  Js.parseFloat s = Js.NaN \/
  (exists q, Js.parseFloat s = Js.Num q /\ (0 <= q)%Q) \/
  Js.parseFloat s = Js.Infinity.
Proof.
  unfold Js.parseFloat.
  pose proof (read_digits_nonneg s 0 0 (Z.le_refl 0)) as Hip.
  destruct (Js.read_digits s 0 0) as [[ip ni] rest]. simpl in Hip.
  assert (Plain :
    (if (ni =? 0)%nat then Js.NaN else Js.nearest_double (inject_Z ip)) = Js.NaN \/
    (exists q, (if (ni =? 0)%nat then Js.NaN else Js.nearest_double (inject_Z ip))
               = Js.Num q /\ (0 <= q)%Q) \/
    (if (ni =? 0)%nat then Js.NaN else Js.nearest_double (inject_Z ip))
    = Js.Infinity).
  { destruct (ni =? 0)%nat; [left; reflexivity|right].
    apply nearest_double_shape. unfold Qle. simpl. lia. }
  destruct rest as [|c rest']; [exact Plain|].
  destruct (Ascii.eqb_spec c "."%char) as [->|Hne].
  - pose proof (read_digits_nonneg rest' ip 0 Hip) as Hm.
    destruct (Js.read_digits rest' ip 0) as [[m nf] rest'']. simpl in Hm.
    destruct ((ni + nf)%nat =? 0)%nat; [left; reflexivity|right].
    apply nearest_double_shape. unfold Qle. simpl. lia.
  - destruct c as [[] [] [] [] [] [] [] []]; try exact Plain.
    exfalso. apply Hne. reflexivity.
Qed.

Lemma parsePrice_shape (text : string) :
  parsePrice text = Js.Null \/ parsePrice text = Js.NaN \/
  (exists q, parsePrice text = Js.Num q /\ (0 <= q)%Q) \/
  parsePrice text = Js.Infinity.
Proof.
  unfold parsePrice. destruct (Js.is_empty text); [left; reflexivity|].
  cbv zeta. destruct (first_run _) as [m|]; [|left; reflexivity].
  right. apply parseFloat_shape.
Qed.

Lemma truthy_price_positive (text : string) :
  Js.truthy (parsePrice text) = true ->
  (exists q, parsePrice text = Js.Num q /\ (0 < q)%Q) \/
  parsePrice text = Js.Infinity.
Proof.
  intros T. destruct (parsePrice_shape text) as [E|[E|[(q & E & Hq)|E]]];
    try (rewrite E in T; discriminate).
  - left. exists q. split; [exact E|]. rewrite E in T. simpl in T.
    apply negb_true_iff, Z.eqb_neq in T. unfold Qlt, Qle in *. simpl in *. lia.
  - right. exact E.
Qed.

Lemma space_not_digit_or_point (c : ascii) :
  Js.is_space c = true -> digit_or_point c = false.
Proof.
  intros S. destruct (digit_or_point c) eqn:D; [|reflexivity].
  destruct (digit_or_point_kept c D) as [_ H]. congruence.
Qed.

Lemma first_run_trim_start (s : string) :
  first_run (Js.trim_start s) = first_run s.
Proof.
  induction s as [|x s IH]; [reflexivity|]. cbn [Js.trim_start].
  destruct (Js.is_space x) eqn:S; [|reflexivity].
  cbn [first_run]. rewrite (space_not_digit_or_point x S). exact IH.
Qed.

Lemma runs_trim_end (s : string) :
  take_run (Js.trim_end s) = take_run s /\
  first_run (Js.trim_end s) = first_run s.
Proof.
  induction s as [|x s [IHt IHf]]; [split; reflexivity|].
  cbn [Js.trim_end]. destruct (Js.trim_end s) as [|y r] eqn:E.
  - destruct (Js.is_space x) eqn:S.
    + cbn [take_run first_run]. rewrite (space_not_digit_or_point x S).
      split; [reflexivity|exact IHf].
    + cbn [take_run first_run]. rewrite <- IHt, <- IHf. split; reflexivity.
  - cbn [take_run first_run] in *. rewrite <- IHt, <- IHf. split; reflexivity.
Qed.

(** The emptiness test and the trimming of parsePrice change nothing: the
    result is read off the first run of the text without commas and dollar
    signs. *)
Lemma parsePrice_first_run (text : string) :
  parsePrice text =
  match first_run (Js.remove_all comma_or_dollar text) with
  | Some m => Js.parseFloat m
  | None => Js.Null
  end.
Proof.
  unfold parsePrice. destruct text as [|c text]; [reflexivity|].
  cbn [Js.is_empty]. cbv zeta. unfold Js.trim.
  rewrite (proj2 (runs_trim_end _)), first_run_trim_start. reflexivity.
Qed.

Lemma parseFloat_not_null (s : string) : Js.parseFloat s <> Js.Null.
Proof.
  destruct (parseFloat_shape s) as [E|[(q & E & _)|E]]; rewrite E; discriminate.
Qed.

(** X1: parsePrice yields null, NaN or a number that is not negative (a
    finite one or Infinity), never undefined, and the result is truthy exactly
    when it is a number above 0.  A character in front that is neither a digit
    nor a point, such as a minus sign, is not read. *)
Theorem parsePrice_never_negative (text : string) :
  (parsePrice text = Js.Null \/ parsePrice text = Js.NaN \/
   (exists q, parsePrice text = Js.Num q /\ (0 <= q)%Q) \/
   parsePrice text = Js.Infinity) /\
  (Js.truthy (parsePrice text) = true <->
   (exists q, parsePrice text = Js.Num q /\ (0 < q)%Q) \/
   parsePrice text = Js.Infinity) /\
  (forall c, digit_or_point c = false ->
             parsePrice (String c text) = parsePrice text).
Proof.
  split; [apply parsePrice_shape|]. split.
  - split; [apply truthy_price_positive|].
    intros [(q & -> & Hq)| ->]; [|reflexivity]. simpl.
    apply negb_true_iff, Z.eqb_neq. unfold Qlt in Hq. simpl in Hq. lia.
  - intros c D. rewrite !parsePrice_first_run. cbn [Js.remove_all].
    destruct (comma_or_dollar c); [reflexivity|].
    cbn [first_run]. rewrite D. reflexivity.
Qed.

(** X2: commas and dollar signs never change the parsed price, wherever they
    stand: the text and the text without them parse alike, and so does the
    text with one more of them anywhere. *)
Theorem parsePrice_ignores_separators (text : string) :
  parsePrice (Js.remove_all comma_or_dollar text) = parsePrice text /\
  (forall a b c, text = a +:+ b -> comma_or_dollar c = true ->
                 parsePrice (a +:+ String c b) = parsePrice text).
Proof.
  split.
  - rewrite !parsePrice_first_run, remove_all_idem. reflexivity.
  - intros a b c -> Hc. rewrite !parsePrice_first_run, !remove_all_append.
    cbn [Js.remove_all]. rewrite Hc. reflexivity.
Qed.

(** X3: parsePrice returns the no-value result exactly for a text without any
    digit and without any point. *)
Theorem parsePrice_null_iff (text : string) :
  parsePrice text = Js.Null <-> ~ has_digit_or_point text.
Proof.
  rewrite parsePrice_first_run.
  destruct (first_run (Js.remove_all comma_or_dollar text)) as [m|] eqn:E.
  - split; [intros H; destruct (parseFloat_not_null m H)|].
    intros Hno. exfalso.
    assert (N : first_run (Js.remove_all comma_or_dollar text) = None).
    { apply first_run_none. intros c Hc.
      destruct (digit_or_point c) eqn:D; [|reflexivity].
      exfalso. apply Hno. exists c. split; [|exact D].
      apply (remove_all_chars _ _ _ Hc). }
    congruence.
  - split; [|reflexivity]. intros _ (c & Hc & D).
    destruct (digit_or_point_kept c D) as [Hk _].
    pose proof (proj1 (first_run_none _) E c
                  (remove_all_keeps _ _ _ Hc Hk)). congruence.
Qed.

Lemma parsePrice_ignores_separators_witness :
  parsePrice "1,234.50" = parsePrice "1234.50".
Proof.
  exact (proj2 (parsePrice_ignores_separators "1234.50") "1" "234.50" ","%char
           eq_refl eq_refl).
Defined.

(** ** Invariants of the table scan *)

Lemma classify_range (l : string) (key : string) :
  classify l = Some key -> In key categoryKeys.
Proof.
  unfold classify, categoryKeys.
  repeat match goal with
         | |- context [if ?b then _ else _] => destruct b
         end; intros [= <-]; simpl; tauto.
Qed.

(** What one row adds, whatever the state it meets. *)
Lemma scanRow_from (data : ScrapeData) (row : Row) :
  rawData (scanRow data row) =
    rawData data ++ rawData (scanRow (mkData ∅ []) row) /\
  categories (scanRow data row) =
    categories (scanRow (mkData ∅ []) row) ∪ categories data.
Proof.
  unfold scanRow. destruct row as [|c0 [|c1 rest]];
    try (simpl; rewrite app_nil_r, (left_id_L ∅ (∪)); split; reflexivity).
  destruct (negb (Js.is_empty (Js.trim c0)) && Js.truthy (parsePrice (Js.trim c1))).
  - destruct (classify (Js.trim c0)) as [key|]; simpl.
    + split; [reflexivity|]. rewrite insert_empty.
      apply insert_union_singleton_l.
    + rewrite (left_id_L ∅ (∪)). split; reflexivity.
  - simpl. rewrite app_nil_r, (left_id_L ∅ (∪)). split; reflexivity.
Qed.

Lemma scanRows_from (rows : list Row) (data : ScrapeData) :
  rawData (fold_left scanRow rows data) =
    rawData data ++ rawData (fold_left scanRow rows (mkData ∅ [])) /\
  categories (fold_left scanRow rows data) =
    categories (fold_left scanRow rows (mkData ∅ [])) ∪ categories data.
Proof.
  revert data. induction rows as [|row rows IH]; intros data.
  - simpl. rewrite app_nil_r, (left_id_L ∅ (∪)). split; reflexivity.
  - cbn [fold_left].
    destruct (IH (scanRow data row)) as [R C].
    destruct (IH (scanRow (mkData ∅ []) row)) as [R0 C0].
    destruct (scanRow_from data row) as [Rr Cr].
    rewrite R, C, R0, C0, Rr, Cr. split.
    + rewrite <- app_assoc. reflexivity.
    + rewrite (assoc_L (∪)). reflexivity.
Qed.

(** X4: scanning the tables of two stretches of a page one after the other
    is scanning the stretches apart and joining the results: the raw lists are
    concatenated, and in the category map the entries of the later stretch
    take precedence. *)
Theorem scan_compose (first later : Document) :
  rawData (scanTables (first ++ later)) =
    rawData (scanTables first) ++ rawData (scanTables later) /\
  categories (scanTables (first ++ later)) =
    categories (scanTables later) ∪ categories (scanTables first).
Proof.
  unfold scanTables. rewrite fold_left_app.
  rewrite (scan_flat later (fold_left scanTable first _)).
  rewrite (scan_flat later (mkData ∅ [])).
  apply scanRows_from.
Qed.

(** The state of the scan after any number of rows. *)
Lemma scanRows_invariant (rows : list Row) :
  let data := fold_left scanRow rows (mkData ∅ []) in
  (forall x, In x (rawData data) ->
     label x <> "" /\
     ((exists q, price x = Js.Num q /\ (0 < q)%Q) \/ price x = Js.Infinity)) /\
  (forall key p, categories data !! key = Some p ->
     In key categoryKeys /\
     exists x, In x (rawData data) /\ price x = p /\
               classify (label x) = Some key).
Proof.
  induction rows as [|row rows IH] using rev_ind.
  - simpl. split; [intros x []|]. intros key p H.
    rewrite lookup_empty in H. discriminate.
  - cbv zeta in *. rewrite fold_left_app. cbn [fold_left].
    destruct IH as [IHr IHc].
    set (d := fold_left scanRow rows (mkData ∅ [])) in *.
    unfold scanRow. destruct row as [|c0 [|c1 rest]];
      try (split; assumption).
    destruct (negb (Js.is_empty (Js.trim c0))) eqn:HL; cbn [andb];
      [|split; assumption].
    destruct (Js.truthy (parsePrice (Js.trim c1))) eqn:HP;
      [|split; assumption].
    assert (Hnew : label (mkRaw (Js.trim c0) (parsePrice (Js.trim c1))) <> "" /\
                   ((exists q, price (mkRaw (Js.trim c0) (parsePrice (Js.trim c1)))
                               = Js.Num q /\ (0 < q)%Q) \/
                    price (mkRaw (Js.trim c0) (parsePrice (Js.trim c1)))
                    = Js.Infinity)).
    { split.
      - simpl. intros E. rewrite E in HL. discriminate.
      - apply truthy_price_positive, HP. }
    assert (Hraw : forall x,
               In x (rawData d ++ [mkRaw (Js.trim c0) (parsePrice (Js.trim c1))]) ->
               label x <> "" /\
               ((exists q, price x = Js.Num q /\ (0 < q)%Q) \/
                price x = Js.Infinity)).
    { intros x Hx. apply in_app_or in Hx. destruct Hx as [Hx|[<-|[]]];
        [apply IHr, Hx|exact Hnew]. }
    assert (Hold : forall key p, categories d !! key = Some p ->
               In key categoryKeys /\
               exists x,
                 In x (rawData d ++ [mkRaw (Js.trim c0) (parsePrice (Js.trim c1))]) /\
                 price x = p /\ classify (label x) = Some key).
    { intros key p H. destruct (IHc key p H) as (Hk & x & Hx & Hp & Hc).
      split; [exact Hk|]. exists x. split; [|split; assumption].
      apply in_or_app. left. exact Hx. }
    destruct (classify (Js.trim c0)) as [k|] eqn:HC; cbn [rawData categories];
      (split; [exact Hraw|]); [|exact Hold].
    intros key p H. destruct (decide (k = key)) as [->|Hne].
    + rewrite lookup_insert_eq in H. injection H as <-.
      split; [apply (classify_range _ _ HC)|].
      exists (mkRaw (Js.trim c0) (parsePrice (Js.trim c1))).
      split; [apply in_or_app; right; left; reflexivity|].
      split; [reflexivity|exact HC].
    + rewrite lookup_insert_ne in H by exact Hne. apply Hold, H.
Qed.

(** X5: at the end of a scan every entry of the raw list has a label that is
    not empty and a price that is a number above 0, finite or Infinity. *)
Theorem scan_raw_rows_priced (tables : Document) (x : RawPriceRow) :
  In x (rawData (scanTables tables)) ->
  label x <> "" /\
  ((exists q, price x = Js.Num q /\ (0 < q)%Q) \/ price x = Js.Infinity).
Proof.
  unfold scanTables. rewrite scan_flat.
  apply (proj1 (scanRows_invariant (concat tables))).
Qed.

Lemma scan_categories_from_rows_aux (tables : Document) (key : string)
    (p : Js.value) :
  categories (scanTables tables) !! key = Some p ->
  In key categoryKeys /\
  exists x, In x (rawData (scanTables tables)) /\ price x = p /\
            classify (label x) = Some key.
Proof.
  unfold scanTables. rewrite scan_flat.
  apply (proj2 (scanRows_invariant (concat tables))).
Qed.

Lemma scan_raw_rows_priced_aux (tables : Document) (x : RawPriceRow) :
  In x (rawData (scanTables tables)) ->
  label x <> "" /\
  ((exists q, price x = Js.Num q /\ (0 < q)%Q) \/ price x = Js.Infinity).
Proof.
  unfold scanTables. rewrite scan_flat.
  apply (proj1 (scanRows_invariant (concat tables))).
Qed.

(** X6: at the end of a scan every entry of the category map sits under one
    of the five category keys and holds the price of a row of the raw list
    whose label the classifier sends to that key. *)
Theorem scan_categories_from_rows (tables : Document) (key : string)
    (p : Js.value) :
  categories (scanTables tables) !! key = Some p ->
  In key categoryKeys /\
  exists x, In x (rawData (scanTables tables)) /\ price x = p /\
            classify (label x) = Some key.
Proof.
  unfold scanTables. rewrite scan_flat.
  apply (proj2 (scanRows_invariant (concat tables))).
Qed.

Lemma scan_raw_rows_priced_witness :
  label (mkRaw "Gasoline" (Js.Num (3 # 2))) <> "" /\
  ((exists q, price (mkRaw "Gasoline" (Js.Num (3 # 2))) = Js.Num q /\ (0 < q)%Q)
   \/ price (mkRaw "Gasoline" (Js.Num (3 # 2))) = Js.Infinity).
Proof.
  exact (scan_raw_rows_priced [[["Gasoline"; "1.50 $"]]]
           (mkRaw "Gasoline" (Js.Num (3 # 2))) (or_introl eq_refl)).
Defined.

Lemma scan_categories_from_rows_witness :
  In "utilities" categoryKeys /\
  exists x, In x (rawData (scanTables [[["Basic utilities"; "150"]]])) /\
            price x = Js.Num 150 /\ classify (label x) = Some "utilities".
Proof.
  exact (scan_categories_from_rows [[["Basic utilities"; "150"]]] "utilities"
           (Js.Num 150) eq_refl).
Defined.

(** ** The result of scrapeNumbeo *)

Lemma truthy_get_some (m : gmap string Js.value) (key : string) :
  Js.truthy (get m key) = true -> exists p, m !! key = Some p.
Proof.
  unfold get. destruct (m !! key) as [p|]; [eauto|discriminate].
Qed.

(** X7: scrapeNumbeo returns an object exactly when the request succeeds and
    the scan of the page puts at least one row on the raw list, and the
    object is then the state of that scan; the test of housingCenter in its
    last guard never decides, and a page without tables is one case of an
    empty raw list. *)
Theorem scrapeNumbeo_some_iff (fetch : string -> option Document)
    (cityName : string) (data : ScrapeData) :
  scrapeNumbeo fetch cityName = Some data <->
  exists tables,
    fetch (numbeoUrl cityName) = Some tables /\
    data = scanTables tables /\ rawData data <> [].
Proof.
  unfold scrapeNumbeo. destruct (fetch (numbeoUrl cityName)) as [tables|].
  - destruct tables as [|t tables].
    + simpl. split; [discriminate|]. intros (ts & [= <-] & -> & H).
      exfalso. apply H. reflexivity.
    + cbn [length Nat.eqb]. cbv zeta.
      set (d := scanTables (t :: tables)).
      destruct (Js.truthy (get (categories d) "housingCenter")) eqn:T.
      * cbn [negb andb]. split.
        -- intros [= <-]. exists (t :: tables). split; [reflexivity|].
           split; [reflexivity|].
           destruct (truthy_get_some _ _ T) as [p Hp].
           destruct (scan_categories_from_rows_aux (t :: tables) _ _ Hp)
             as (_ & x & Hx & _).
           intros E. fold d in Hx. rewrite E in Hx. destruct Hx.
        -- intros (ts & [= <-] & -> & _). reflexivity.
      * cbn [negb andb]. destruct (rawData d) as [|x l] eqn:R.
        -- simpl. split; [discriminate|]. intros (ts & [= <-] & -> & H).
           exfalso. apply H. exact R.
        -- simpl. split.
           ++ intros [= <-]. exists (t :: tables). split; [reflexivity|].
              split; [reflexivity|]. rewrite R. discriminate.
           ++ intros (ts & [= <-] & -> & _). reflexivity.
  - split; [discriminate|]. intros (ts & H & _). discriminate.
Qed.

(** ** More on the classifier *)

Lemma match_here_lower (p : Js.pattern) (s : list ascii) :
  ascii_pattern p = true ->
  Js.match_here p (map Js.lower_char s) = Js.match_here p s.
Proof.
  revert s. induction p as [|[c|] p IH]; intros s Hp.
  - reflexivity.
  - simpl in Hp. apply andb_true_iff in Hp. destruct Hp as [Hc Hp].
    destruct s as [|x s]; simpl; [reflexivity|].
    rewrite (lower_char_same_ci c x Hc), (IH s Hp). reflexivity.
  - simpl in Hp. induction s as [|x s IHs].
    + reflexivity.
    + rewrite (match_here_star_eq p (x :: s)).
      change (map Js.lower_char (x :: s))
        with (Js.lower_char x :: map Js.lower_char s).
      rewrite (match_here_star_eq p (Js.lower_char x :: _)).
      rewrite lower_char_line, IHs.
      change (Js.lower_char x :: map Js.lower_char s)
        with (map Js.lower_char (x :: s)).
      rewrite (IH (x :: s) Hp). reflexivity.
Qed.

Lemma search_lower (p : Js.pattern) (s : list ascii) :
  ascii_pattern p = true ->
  Js.search p (map Js.lower_char s) = Js.search p s.
Proof.
  intros Hp. induction s as [|x s IH].
  - reflexivity.
  - cbn [Js.search map]. rewrite IH.
    change (Js.lower_char x :: map Js.lower_char s)
      with (map Js.lower_char (x :: s)).
    rewrite (match_here_lower p (x :: s) Hp). reflexivity.
Qed.

Lemma matches_lower (l : string) (p : Js.pattern) :
  ascii_pattern p = true ->
  Js.matches (Js.toLowerCase l) p = Js.matches l p.
Proof.
  intros Hp. unfold Js.matches. rewrite toLowerCase_chars.
  apply search_lower, Hp.
Qed.

(** X8: the classifier does not look at the case of letters: a label and its
    lower-case form get the same category. *)
Theorem classify_ignores_case (l : string) :
  classify (Js.toLowerCase l) = classify l.
Proof.
  unfold classify. rewrite !matches_lower by reflexivity. reflexivity.
Qed.

Lemma same_char_ci_true (a x : ascii) :
  Js.same_char_ci a x = true -> Js.canon a = Js.canon x.
Proof. unfold Js.same_char_ci. apply Ascii.eqb_eq. Qed.

Lemma match_here_literal_inv (lit : string) (p : Js.pattern) (s : list ascii) :
  Js.match_here (Js.literal lit ++ p) s = true ->
  exists m rest, s = m ++ rest /\ ci_equal lit m /\ Js.match_here p rest = true.
Proof.
  unfold ci_equal, Js.literal. generalize (list_ascii_of_string lit) as l.
  intros l. revert s. induction l as [|a l IH]; intros s H.
  - exists [], s. split; [reflexivity|]. split; [constructor|exact H].
  - simpl in H. destruct s as [|x s]; [discriminate|].
    apply andb_true_iff in H. destruct H as [Hx H].
    destruct (IH s H) as (m & rest & -> & Hm & Hp).
    exists (x :: m), rest. split; [reflexivity|].
    split; [constructor; [apply same_char_ci_true, Hx|exact Hm]|exact Hp].
Qed.

Lemma match_here_star_inv (p : Js.pattern) (s : list ascii) :
  Js.match_here (Js.AnyStar :: p) s = true ->
  exists b rest, s = b ++ rest /\ one_line b /\ Js.match_here p rest = true.
Proof.
  induction s as [|x s IH]; rewrite match_here_star_eq; intros H.
  - rewrite orb_false_r in H. exists [], []. split; [reflexivity|].
    split; [constructor|exact H].
  - apply orb_true_iff in H. destruct H as [H|H].
    + exists [], (x :: s). split; [reflexivity|]. split; [constructor|exact H].
    + apply andb_true_iff in H. destruct H as [Hx H].
      destruct (IH H) as (b & rest & -> & Hb & Hp).
      exists (x :: b), rest. split; [reflexivity|].
      split; [constructor; [apply negb_true_iff, Hx|exact Hb]|exact Hp].
Qed.

Lemma search_inv (p : Js.pattern) (s : list ascii) :
  Js.search p s = true ->
  exists a rest, s = a ++ rest /\ Js.match_here p rest = true.
Proof.
  induction s as [|x s IH]; simpl; intros H.
  - rewrite orb_false_r in H. exists [], []. split; [reflexivity|exact H].
  - apply orb_true_iff in H. destruct H as [H|H].
    + exists [], (x :: s). split; [reflexivity|exact H].
    + destruct (IH H) as (a & rest & -> & Hp).
      exists (x :: a), rest. split; [reflexivity|exact Hp].
Qed.

(** The text shape behind a match of a pattern of three literals. *)
Lemma matches_three_inv (l l1 l2 l3 : string) :
  Js.matches l (Js.re [l1; l2; l3]) = true ->
  exists a m1 b m2 c m3 d,
    list_ascii_of_string l = a ++ m1 ++ b ++ m2 ++ c ++ m3 ++ d /\
    ci_equal l1 m1 /\ ci_equal l2 m2 /\ ci_equal l3 m3 /\
    one_line b /\ one_line c.
Proof.
  unfold Js.matches. simpl Js.re. intros H.
  destruct (search_inv _ _ H) as (a & r0 & -> & H0).
  destruct (match_here_literal_inv _ _ _ H0) as (m1 & r1 & -> & Hm1 & H1).
  destruct (match_here_star_inv _ _ H1) as (b & r2 & -> & Hb & H2).
  destruct (match_here_literal_inv _ _ _ H2) as (m2 & r3 & -> & Hm2 & H3).
  destruct (match_here_star_inv _ _ H3) as (c & r4 & -> & Hc & H4).
  rewrite <- (app_nil_r (Js.literal l3)) in H4.
  destruct (match_here_literal_inv _ _ _ H4) as (m3 & d & -> & Hm3 & _).
  exists a, m1, b, m2, c, m3, d. repeat split; assumption.
Qed.

(** X9: a label is classified as mealRestaurant only if it holds "meal", then
    "inexpensive" or "cheap", then "restaurant", in this order, up to case
    and on one line from the first to the last. *)
Theorem classify_meal_only_in_order (l : string) :
  classify l = Some "mealRestaurant" ->
  exists a m b i c r d,
    list_ascii_of_string l = a ++ m ++ b ++ i ++ c ++ r ++ d /\
    ci_equal "meal" m /\
    (ci_equal "inexpensive" i \/ ci_equal "cheap" i) /\
    ci_equal "restaurant" r /\ one_line b /\ one_line c.
Proof.
  unfold classify.
  destruct (Js.matches l (Js.re ["apartment"; "1"; "bedroom"; "city"; "centre"])
            || Js.matches l (Js.re ["rent"; "1"; "bed"; "center"]));
    [discriminate|].
  destruct (Js.matches l (Js.re ["apartment"; "1"; "bedroom"; "outside"])
            || Js.matches l (Js.re ["rent"; "1"; "bed"; "outside"]));
    [discriminate|].
  destruct (Js.matches l (Js.re ["meal"; "inexpensive"; "restaurant"])) eqn:E1.
  - intros _.
    destruct (matches_three_inv _ _ _ _ E1)
      as (a & m & b & i & c & r & d & E & Hm & Hi & Hr & Hb & Hc).
    exists a, m, b, i, c, r, d. repeat split; try assumption. left. exact Hi.
  - destruct (Js.matches l (Js.re ["meal"; "cheap"; "restaurant"])) eqn:E2.
    + intros _.
      destruct (matches_three_inv _ _ _ _ E2)
        as (a & m & b & i & c & r & d & E & Hm & Hi & Hr & Hb & Hc).
      exists a, m, b, i, c, r, d. repeat split; try assumption. right. exact Hi.
    + cbn [orb].
      repeat match goal with
             | |- context [if ?b then _ else _] => destruct b
             end; discriminate.
Qed.

Lemma classify_meal_only_in_order_witness :
  exists a m b i c r d,
    list_ascii_of_string "A meal at a cheap restaurant" =
      a ++ m ++ b ++ i ++ c ++ r ++ d /\
    ci_equal "meal" m /\
    (ci_equal "inexpensive" i \/ ci_equal "cheap" i) /\
    ci_equal "restaurant" r /\ one_line b /\ one_line c.
Proof.
  exact (classify_meal_only_in_order "A meal at a cheap restaurant" eq_refl).
Defined.

(** ** More on the fallback table *)

Lemma cityKey_lower (cityName : string) :
  cityKey (Js.toLowerCase cityName) = cityKey cityName.
Proof. unfold cityKey. rewrite toLowerCase_idem. reflexivity. Qed.

Lemma cityKey_idem (cityName : string) : cityKey (cityKey cityName) = cityKey cityName.
Proof.
  unfold cityKey.
  rewrite <- (remove_all_lower (Ascii.eqb ",") _ lower_char_comma).
  rewrite <- (remove_all_lower Js.is_space _ lower_char_space).
  rewrite toLowerCase_idem.
  rewrite (remove_all_comm Js.is_space (Ascii.eqb ",")).
  rewrite !remove_all_idem. reflexivity.
Qed.

Lemma cityKey_append (a b : string) :
  cityKey (a +:+ b) = cityKey a +:+ cityKey b.
Proof.
  unfold cityKey. rewrite <- !remove_all_append. f_equal. f_equal.
  induction a as [|c a IH]; simpl; [reflexivity|]. rewrite IH. reflexivity.
Qed.

(** X10: the fallback lookup depends on the key alone, and the key is a
    normal form: computing it twice changes nothing, the case of letters does
    not matter, and a white-space character or a comma put anywhere into the
    name leaves the answer as it was. *)
Theorem fallback_lookup_normalises (cityName : string) :
  cityKey (cityKey cityName) = cityKey cityName /\
  getFallbackData (cityKey cityName) = getFallbackData cityName /\
  getFallbackData (Js.toLowerCase cityName) = getFallbackData cityName /\
  (forall a b c, cityName = a +:+ b ->
     Js.is_space c = true \/ c = ","%char ->
     getFallbackData (a +:+ String c b) = getFallbackData cityName).
Proof.
  split; [apply cityKey_idem|]. unfold getFallbackData. cbv zeta.
  rewrite cityKey_idem, cityKey_lower.
  split; [reflexivity|]. split; [reflexivity|].
  intros a b c -> Hc. rewrite !cityKey_append.
  assert (E : cityKey (String c b) = cityKey b).
  { unfold cityKey. cbn [Js.toLowerCase Js.remove_all].
    destruct Hc as [Hc| ->].
    - rewrite lower_char_space, Hc. reflexivity.
    - reflexivity. }
  rewrite E. reflexivity.
Qed.

Lemma fallback_lookup_normalises_witness :
  getFallbackData "New York" = getFallbackData "NewYork".
Proof.
  exact (proj2 (proj2 (proj2 (fallback_lookup_normalises "NewYork")))
           "New" "York" " "%char eq_refl (or_introl eq_refl)).
Defined.

Lemma cityKey_not_upper (cityName : string) (c : ascii) :
  In c (list_ascii_of_string (cityKey cityName)) -> Js.is_upper c = false.
Proof.
  unfold cityKey. intros H.
  destruct (remove_all_chars _ _ _ H) as [_ H1].
  destruct (remove_all_chars _ _ _ H1) as [_ H2].
  rewrite toLowerCase_chars in H2. apply in_map_iff in H2.
  destruct H2 as (x & <- & _). apply lower_char_not_upper.
Qed.

Lemma cityKey_ne (cityName name : string) (c : ascii) :
  In c (list_ascii_of_string name) -> Js.is_upper c = true ->
  cityKey cityName <> name.
Proof.
  intros Hin Hc E. rewrite <- E in Hin.
  rewrite (cityKey_not_upper cityName c Hin) in Hc. discriminate.
Qed.

Lemma inherited_key (cityName : string) :
  existsb (String.eqb (cityKey cityName)) objectPrototype = true ->
  cityKey cityName = "constructor" \/ cityKey cityName = "__proto__".
Proof.
  intros E. apply existsb_exists in E. destruct E as (n & Hn & E).
  apply String.eqb_eq in E.
  assert (Up : forall c, In c (list_ascii_of_string n) -> Js.is_upper c = true ->
                         False).
  { intros c Hin Hc. exact (cityKey_ne cityName n c Hin Hc E). }
  rewrite E. unfold objectPrototype in Hn. simpl in Hn.
  destruct Hn as [<-|[<-|[<-|[<-|[<-|[<-|[<-|[<-|[<-|[<-|[<-|[<-|[]]]]]]]]]]]]].
  - left. reflexivity.
  - exfalso. apply (Up "G"%char); [simpl; tauto|reflexivity].
  - exfalso. apply (Up "S"%char); [simpl; tauto|reflexivity].
  - exfalso. apply (Up "O"%char); [simpl; tauto|reflexivity].
  - exfalso. apply (Up "G"%char); [simpl; tauto|reflexivity].
  - exfalso. apply (Up "S"%char); [simpl; tauto|reflexivity].
  - exfalso. apply (Up "P"%char); [simpl; tauto|reflexivity].
  - exfalso. apply (Up "I"%char); [simpl; tauto|reflexivity].
  - exfalso. apply (Up "S"%char); [simpl; tauto|reflexivity].
  - exfalso. apply (Up "O"%char); [simpl; tauto|reflexivity].
  - right. reflexivity.
  - exfalso. apply (Up "L"%char); [simpl; tauto|reflexivity].
Qed.

(** X11: of the members that the table inherits, only "constructor" and
    "__proto__" can answer a request; the other ten have a capital letter,
    which no key has. *)
Theorem fallback_inherited_names (cityName name : string) :
  getFallbackData cityName = Builtin name ->
  name = cityKey cityName /\ (name = "constructor" \/ name = "__proto__").
Proof.
  unfold getFallbackData. cbv zeta.
  destruct (fallbackCities !! cityKey cityName); [discriminate|].
  destruct (existsb (String.eqb (cityKey cityName)) objectPrototype) eqn:E;
    [|discriminate].
  intros [= <-]. split; [reflexivity|]. apply inherited_key, E.
Qed.

Lemma fallback_inherited_names_witness :
  "__proto__" = cityKey "__PROTO__" /\
  ("__proto__" = "constructor" \/ "__proto__" = "__proto__").
Proof.
  exact (fallback_inherited_names "__PROTO__" "__proto__" eq_refl).
Defined.

(** ** More on the handler *)

Lemma handler_on_fallback (cityName : string)
    (fetch : string -> option Document) (posts : list RedditPost)
    (today : string) (fallback : Fallback) :
  (forall data, scrapeNumbeo fetch cityName = Some data ->
                Js.truthy (get (categories data) "housingCenter") = false) ->
  getFallbackData cityName = fallback -> fallback <> NoFallback ->
  handler cityName fetch posts today =
  Ok (compile cityName (fromFallback fallback) (scrapeNumbeo fetch cityName)
        posts today).
Proof.
  intros Hs Hf Hne. unfold handler, chooseData.
  assert (S : match scrapeNumbeo fetch cityName with
              | Some d => Js.truthy (get (categories d) "housingCenter")
              | None => false
              end = false).
  { destruct (scrapeNumbeo fetch cityName) as [d|]; [apply Hs|]; reflexivity. }
  rewrite S, Hf. destruct fallback; [reflexivity|reflexivity|congruence].
Qed.

Lemma get_fromFallback (fallback : Fallback) :
  get (fromFallback fallback) "housingCenter" = field housing fallback /\
  get (fromFallback fallback) "housingOutside" = field outside fallback /\
  get (fromFallback fallback) "mealRestaurant" = field meal fallback /\
  get (fromFallback fallback) "transportation" = field transport fallback /\
  get (fromFallback fallback) "utilities" = field utilities fallback.
Proof. unfold get, fromFallback. repeat split; reflexivity. Qed.

(** The records of the table, one by one. *)
Lemma registered_record (key : string) (r : FallbackRecord) :
  fallbackCities !! key = Some r ->
  In r [ mkFallback 3500 2500 20 127 150; mkFallback 2200 1600 18 165 200;
         mkFallback 1200 700 10 70 150; mkFallback 1400 1000 15 75 180;
         mkFallback 2800 2000 10 100 150; mkFallback 3200 2600 18 100 120;
         mkFallback 2500 1800 18 100 140; mkFallback 3600 2800 20 98 130;
         mkFallback 2300 1700 17 99 160; mkFallback 1700 1300 15 75 150;
         mkFallback 2900 2100 18 90 170; mkFallback 1900 1400 16 105 140 ].
Proof.
  unfold fallbackCities. intros H. apply elem_of_list_to_map_2 in H.
  repeat (apply elem_of_cons in H; destruct H as [[= _ ->]|H];
          [simpl; tauto|]).
  apply elem_of_nil in H. destruct H.
Qed.

(** X12: when the scrape gives no housingCenter and the city is registered,
    the result carries the numbers of the record unchanged (no default and no
    rounding alters them), 20 times the meal price as groceries and 10 times
    the meal price as entertainment. *)
Theorem fallback_hit_numbers (cityName : string)
    (fetch : string -> option Document) (posts : list RedditPost)
    (today : string) (r : FallbackRecord) :
  (forall data, scrapeNumbeo fetch cityName = Some data ->
                Js.truthy (get (categories data) "housingCenter") = false) ->
  getFallbackData cityName = Registered r ->
  exists body,
    handler cityName fetch posts today = Ok body /\
    housing_cityCenter body = Js.Num (housing r) /\
    housing_outside body = Js.Num (outside r) /\
    food_monthly body = Js.Num (20 * meal r) /\
    transportation_monthly body = Js.Num (transport r) /\
    utilities_monthly body = Js.Num (utilities r) /\
    entertainment_monthly body = Js.Num (10 * meal r).
Proof.
  intros Hs Hf.
  rewrite (handler_on_fallback _ _ _ _ _ Hs Hf) by discriminate.
  eexists. split; [reflexivity|]. unfold compile.
  cbn [housing_cityCenter housing_outside food_monthly transportation_monthly
       utilities_monthly entertainment_monthly].
  destruct (get_fromFallback (Registered r)) as (-> & -> & -> & -> & ->).
  assert (Hr : exists key, fallbackCities !! key = Some r).
  { unfold getFallbackData in Hf. cbv zeta in Hf.
    destruct (fallbackCities !! cityKey cityName) as [r'|] eqn:E.
    - injection Hf as ->. eauto.
    - destruct (existsb _ _); discriminate. }
  destruct Hr as [key Hr]. apply registered_record in Hr. simpl in Hr.
  repeat (destruct Hr as [<-|Hr]; [repeat split|]). destruct Hr.
Qed.

Lemma fallback_hit_numbers_witness :
  exists body,
    handler "Tokyo" (fun _ => None) [] "" = Ok body /\
    housing_cityCenter body = Js.Num 1200 /\
    housing_outside body = Js.Num 700 /\
    food_monthly body = Js.Num 200 /\
    transportation_monthly body = Js.Num 70 /\
    utilities_monthly body = Js.Num 150 /\
    entertainment_monthly body = Js.Num 100.
Proof.
  refine (fallback_hit_numbers "Tokyo" (fun _ => None) [] ""
            (mkFallback 1200 700 10 70 150) _ eq_refl).
  intros data E. discriminate E.
Defined.

(** X13: the handler answers 404 exactly when the scrape gives no truthy
    housingCenter, the key of the city is not in the table and the key is
    neither "constructor" nor "__proto__". *)
Theorem handler_404_iff (cityName : string)
    (fetch : string -> option Document) (posts : list RedditPost)
    (today : string) :
  handler cityName fetch posts today = Status404 (notFound cityName) <->
  (forall data, scrapeNumbeo fetch cityName = Some data ->
                Js.truthy (get (categories data) "housingCenter") = false) /\
  fallbackCities !! cityKey cityName = None /\
  cityKey cityName <> "constructor" /\ cityKey cityName <> "__proto__".
Proof.
  split.
  - unfold handler, chooseData.
    destruct (scrapeNumbeo fetch cityName) as [d|].
    + destruct (Js.truthy (get (categories d) "housingCenter")) eqn:T;
        [discriminate|].
      intros H. split; [intros data [= <-]; exact T|].
      unfold getFallbackData in H. cbv zeta in H.
      destruct (fallbackCities !! cityKey cityName); [discriminate|].
      split; [reflexivity|].
      split; intros E; rewrite E in H; discriminate H.
    + intros H. split; [discriminate|].
      unfold getFallbackData in H. cbv zeta in H.
      destruct (fallbackCities !! cityKey cityName); [discriminate|].
      split; [reflexivity|].
      split; intros E; rewrite E in H; discriminate H.
  - intros (Hs & Hk & Hc & Hp).
    apply (handler_not_found cityName fetch posts today Hs).
    unfold getFallbackData. cbv zeta. rewrite Hk.
    destruct (existsb (String.eqb (cityKey cityName)) objectPrototype) eqn:E;
      [|reflexivity].
    destruct (inherited_key cityName E); contradiction.
Qed.

(** ** The sign of the amounts *)

Lemma round_natural (v : Js.value) :
  (exists q, v = Js.Num q /\ (0 <= q)%Q) \/ v = Js.Infinity ->
  is_natural_amount (Js.Math_round v) \/ Js.Math_round v = Js.Infinity.
Proof.
  intros [(q & -> & Hq)| ->]; [left|right; reflexivity].
  exists (Js.round q). split; [reflexivity|apply round_nonneg, Hq].
Qed.

Lemma mul_positive (v : Js.value) (c : Q) :
  (exists q, v = Js.Num q /\ (0 <= q)%Q) \/ v = Js.Infinity -> (0 < c)%Q ->
  (exists q, Js.mul v (Js.Num c) = Js.Num q /\ (0 <= q)%Q) \/
  Js.mul v (Js.Num c) = Js.Infinity.
Proof.
  intros [(q & -> & Hq)| ->] Hc; unfold Js.mul; cbn [Js.to_number Js.Infinity].
  - apply nearest_double_shape. apply Qmult_le_0_compat; [exact Hq|].
    apply Qlt_le_weak, Hc.
  - right. unfold Js.is_zero, Js.is_negative. unfold Qlt in Hc. simpl in Hc.
    destruct (Z.eqb_spec (Qnum c) 0); [lia|].
    destruct (Z.ltb_spec (Qnum c) 0); [lia|reflexivity].
Qed.

Lemma div_positive (v : Js.value) (c : Q) :
  (exists q, v = Js.Num q /\ (0 <= q)%Q) \/ v = Js.Infinity -> (0 < c)%Q ->
  (exists q, Js.div v (Js.Num c) = Js.Num q /\ (0 <= q)%Q) \/
  Js.div v (Js.Num c) = Js.Infinity.
Proof.
  intros [(q & -> & Hq)| ->] Hc; unfold Js.div; cbn [Js.to_number Js.Infinity];
    unfold Js.is_zero, Js.is_negative; pose proof Hc as Hc';
    unfold Qlt in Hc'; simpl in Hc'.
  - destruct (Z.eqb_spec (Qnum c) 0); [lia|].
    apply nearest_double_shape. unfold Qdiv.
    apply Qmult_le_0_compat; [exact Hq|].
    apply Qlt_le_weak, Qinv_lt_0_compat, Hc.
  - right. destruct (Z.ltb_spec (Qnum c) 0); [lia|reflexivity].
Qed.

Lemma positive_weak (v : Js.value) :
  (exists q, v = Js.Num q /\ (0 < q)%Q) \/ v = Js.Infinity ->
  Js.truthy v = true /\
  ((exists q, v = Js.Num q /\ (0 <= q)%Q) \/ v = Js.Infinity).
Proof.
  intros [(q & -> & Hq)| ->]; (split; [|]).
  - apply truthy_nonzero. intros E. rewrite E in Hq. discriminate Hq.
  - left. exists q. split; [reflexivity|apply Qlt_le_weak, Hq].
  - reflexivity.
  - right. reflexivity.
Qed.

Lemma or_default_natural (v : Js.value) (d : Z) :
  falsy_or_positive v -> (0 <= d)%Z ->
  is_natural_amount (Js.Math_round (Js.or v (Js.Num (inject_Z d)))) \/
  Js.Math_round (Js.or v (Js.Num (inject_Z d))) = Js.Infinity.
Proof.
  intros [F|P] Hd; unfold Js.or.
  - rewrite F. apply round_natural. left. exists (inject_Z d).
    split; [reflexivity|]. unfold Qle. simpl. lia.
  - destruct (positive_weak v P) as [T W]. rewrite T. apply round_natural, W.
Qed.

Lemma estimateGroceries_natural (v : Js.value) :
  falsy_or_positive v ->
  is_natural_amount (estimateGroceries v) \/ estimateGroceries v = Js.Infinity.
Proof.
  intros [F|P].
  - rewrite (estimateGroceries_falsy v F). left. exists 400%Z.
    split; [reflexivity|lia].
  - destruct (positive_weak v P) as [T W].
    rewrite (estimateGroceries_truthy v T).
    apply round_natural, div_positive; [|reflexivity].
    apply mul_positive; [exact W|reflexivity].
Qed.

Lemma estimateEntertainment_natural (v : Js.value) :
  falsy_or_positive v ->
  is_natural_amount (estimateEntertainment v) \/
  estimateEntertainment v = Js.Infinity.
Proof.
  intros [F|P].
  - rewrite (estimateEntertainment_falsy v F). left. exists 150%Z.
    split; [reflexivity|lia].
  - destruct (positive_weak v P) as [T W].
    rewrite (estimateEntertainment_truthy v T).
    apply round_natural, mul_positive; [exact W|reflexivity].
Qed.

Lemma scraped_values (tables : Document) (key : string) :
  falsy_or_positive (get (categories (scanTables tables)) key).
Proof.
  unfold get. destruct (categories (scanTables tables) !! key) as [p|] eqn:E.
  - right. destruct (scan_categories_from_rows_aux tables key p E)
      as (_ & x & Hx & <- & _).
    apply (scan_raw_rows_priced_aux tables x Hx).
  - left. reflexivity.
Qed.

Lemma field_values (f : FallbackRecord -> Q) (cityName : string) :
  In f [housing; outside; meal; transport; utilities] ->
  falsy_or_positive (field f (getFallbackData cityName)).
Proof.
  intros Hf. unfold getFallbackData. cbv zeta.
  destruct (fallbackCities !! cityKey cityName) as [r|] eqn:E.
  - right. left. exists (f r). split; [reflexivity|].
    apply registered_record in E. simpl in E, Hf.
    repeat (destruct E as [<-|E];
            [repeat (destruct Hf as [<-|Hf]; [reflexivity|]); destruct Hf|]).
    destruct E.
  - left. destruct (existsb _ _); reflexivity.
Qed.

Lemma chosen_values (cityName : string) (fetch : string -> option Document)
    (fd : gmap string Js.value) (key : string) :
  chooseData cityName (scrapeNumbeo fetch cityName) = Some fd ->
  In key categoryKeys -> falsy_or_positive (get fd key).
Proof.
  unfold chooseData. intros H Hk.
  destruct (scrapeNumbeo fetch cityName) as [d|] eqn:S.
  - destruct (Js.truthy (get (categories d) "housingCenter")).
    + injection H as <-. unfold scrapeNumbeo in S.
      destruct (fetch (numbeoUrl cityName)) as [tables|]; [|discriminate].
      destruct (length tables =? 0)%nat; [discriminate|]. cbv zeta in S.
      destruct (_ && _); [discriminate|]. injection S as <-.
      apply scraped_values.
    + destruct (getFallbackData cityName) eqn:F; [| |discriminate];
        injection H as <-; rewrite <- F;
        destruct (get_fromFallback (getFallbackData cityName))
          as (E1 & E2 & E3 & E4 & E5);
        simpl in Hk;
        destruct Hk as [<-|[<-|[<-|[<-|[<-|[]]]]]];
        rewrite ?E1, ?E2, ?E3, ?E4, ?E5; apply field_values; simpl; tauto.
  - destruct (getFallbackData cityName) eqn:F; [| |discriminate];
      injection H as <-; rewrite <- F;
      destruct (get_fromFallback (getFallbackData cityName))
        as (E1 & E2 & E3 & E4 & E5);
      simpl in Hk;
      destruct Hk as [<-|[<-|[<-|[<-|[<-|[]]]]]];
      rewrite ?E1, ?E2, ?E3, ?E4, ?E5; apply field_values; simpl; tauto.
Qed.

(** X14: no amount of a result is negative or NaN, whatever page the scrape
    target sends: each of the six numbers is a whole number from 0 upwards,
    or Infinity when a scraped price or an estimate made from it has
    overflowed. *)
Theorem result_amounts_not_negative (cityName : string)
    (fetch : string -> option Document) (posts : list RedditPost)
    (today : string) (body : CostResult) :
  handler cityName fetch posts today = Ok body ->
  (is_natural_amount (housing_cityCenter body) \/
   housing_cityCenter body = Js.Infinity) /\
  (is_natural_amount (housing_outside body) \/
   housing_outside body = Js.Infinity) /\
  (is_natural_amount (food_monthly body) \/
   food_monthly body = Js.Infinity) /\
  (is_natural_amount (transportation_monthly body) \/
   transportation_monthly body = Js.Infinity) /\
  (is_natural_amount (utilities_monthly body) \/
   utilities_monthly body = Js.Infinity) /\
  (is_natural_amount (entertainment_monthly body) \/
   entertainment_monthly body = Js.Infinity).
Proof.
  unfold handler.
  destruct (chooseData cityName (scrapeNumbeo fetch cityName)) as [fd|] eqn:C;
    [|discriminate].
  intros [= <-]. unfold compile.
  cbn [housing_cityCenter housing_outside food_monthly transportation_monthly
       utilities_monthly entertainment_monthly].
  assert (V : forall key, In key categoryKeys -> falsy_or_positive (get fd key)).
  { intros key. apply (chosen_values cityName fetch fd key C). }
  split; [apply (or_default_natural _ 1200); [apply V; simpl; tauto|lia]|].
  split; [apply (or_default_natural _ 800); [apply V; simpl; tauto|lia]|].
  split; [apply estimateGroceries_natural, V; simpl; tauto|].
  split; [apply (or_default_natural _ 70); [apply V; simpl; tauto|lia]|].
  split; [apply (or_default_natural _ 150); [apply V; simpl; tauto|lia]|].
  apply estimateEntertainment_natural, V. simpl. tauto.
Qed.

Lemma result_amounts_not_negative_witness :
  (is_natural_amount Js.Infinity \/ Js.Infinity = Js.Infinity) /\
  (is_natural_amount (Js.Num 800) \/ Js.Num 800 = Js.Infinity) /\
  (is_natural_amount Js.Infinity \/ Js.Infinity = Js.Infinity) /\
  (is_natural_amount (Js.Num 70) \/ Js.Num 70 = Js.Infinity) /\
  (is_natural_amount (Js.Num 150) \/ Js.Num 150 = Js.Infinity) /\
  (is_natural_amount Js.Infinity \/ Js.Infinity = Js.Infinity).
Proof.
  exact (result_amounts_not_negative "Atlantis"
           (fun _ => Some [[["Apartment (1 bedroom) in City Centre"; nines 309];
                            ["Meal, Inexpensive Restaurant"; nines 309]]])
           [] ""
           (compile "Atlantis"
              (categories
                 (scanTables
                    [[["Apartment (1 bedroom) in City Centre"; nines 309];
                      ["Meal, Inexpensive Restaurant"; nines 309]]]))
              (Some (scanTables
                 [[["Apartment (1 bedroom) in City Centre"; nines 309];
                   ["Meal, Inexpensive Restaurant"; nines 309]]]))
              [] "")
           eq_refl).
Defined.

(** ** More on the slug *)

(** X15: the slug holds only ASCII letters, digits and hyphens, so the
    address asked of the scrape target is its fixed prefix followed by such
    characters, whatever the city name is. *)
Theorem citySlug_url_safe (cityName : string) :
  (forall c, In c (list_ascii_of_string (citySlug cityName)) ->
     Js.is_digit c || Js.in_range 65 90 c || Js.in_range 97 122 c
     || Ascii.eqb c "-" = true) /\
  numbeoUrl cityName =
    "https://www.numbeo.com/cost-of-living/in/" +:+ citySlug cityName.
Proof.
  split; [|reflexivity]. intros c H. unfold citySlug in H. cbv zeta in H.
  destruct (remove_all_chars _ _ _ H) as [Hc _].
  unfold not_slug_char in Hc. apply negb_false_iff in Hc. exact Hc.
Qed.

Lemma trim_start_append (n : string) (c : ascii) (t : string) :
  Js.is_space c = false ->
  Js.trim_start (n +:+ String c t) = Js.trim_start n +:+ String c t.
Proof.
  intros Hc. induction n as [|x n IH]; simpl.
  - rewrite Hc. reflexivity.
  - destruct (Js.is_space x); [exact IH|reflexivity].
Qed.

Lemma trim_end_append (u t : string) :
  t <> "" -> Js.trim_end t = t -> Js.trim_end (u +:+ t) = u +:+ t.
Proof.
  intros Hne Ht. induction u as [|x u IH]; [exact Ht|].
  change (String x u +:+ t) with (String x (u +:+ t)).
  cbn [Js.trim_end]. rewrite IH. destruct (u +:+ t) eqn:E; [|reflexivity].
  destruct u; simpl in E; [contradiction|discriminate].
Qed.

Lemma trim_end_last (u : string) (b : ascii) :
  Js.is_space b = false ->
  Js.trim_end (u +:+ String b "") = u +:+ String b "".
Proof.
  intros Hb. apply trim_end_append; [discriminate|]. simpl. rewrite Hb.
  reflexivity.
Qed.

Lemma trim_end_idem (s : string) : Js.trim_end (Js.trim_end s) = Js.trim_end s.
Proof.
  induction s as [|x s IH]; [reflexivity|]. cbn [Js.trim_end].
  destruct (Js.trim_end s) as [|y r] eqn:E.
  - destruct (Js.is_space x) eqn:S; [reflexivity|]. simpl. rewrite S. reflexivity.
  - cbn [Js.trim_end] in *. rewrite IH. reflexivity.
Qed.

Lemma trim_start_clean (s : string) :
  match Js.trim_start s with
  | String x _ => Js.is_space x = false
  | EmptyString => True
  end.
Proof.
  induction s as [|x s IH]; simpl; [exact I|].
  destruct (Js.is_space x) eqn:S; [exact IH|exact S].
Qed.

Lemma trim_start_of_clean (w : string) :
  match w with
  | String x _ => Js.is_space x = false
  | EmptyString => True
  end ->
  Js.trim_start w = w.
Proof. destruct w as [|x w]; simpl; [reflexivity|]. intros ->. reflexivity. Qed.

Lemma trim_end_clean (w : string) :
  match w with
  | String x _ => Js.is_space x = false
  | EmptyString => True
  end ->
  match Js.trim_end w with
  | String x _ => Js.is_space x = false
  | EmptyString => True
  end.
Proof.
  destruct w as [|x w]; simpl; [tauto|]. intros S.
  destruct (Js.trim_end w); [rewrite S|]; exact S.
Qed.

Lemma trim_idem (s : string) : Js.trim (Js.trim s) = Js.trim s.
Proof.
  unfold Js.trim.
  rewrite (trim_start_of_clean (Js.trim_end (Js.trim_start s))).
  - apply trim_end_idem.
  - apply trim_end_clean, trim_start_clean.
Qed.

Lemma trim_of_trim_start (s : string) : Js.trim (Js.trim_start s) = Js.trim s.
Proof.
  unfold Js.trim. rewrite (trim_start_of_clean (Js.trim_start s)); [reflexivity|].
  apply trim_start_clean.
Qed.

Lemma trim_start_blank (ws : string) (c : ascii) (t : string) :
  blank ws -> Js.is_space c = false ->
  Js.trim_start (ws +:+ String c t) = String c t.
Proof.
  unfold blank. intros Hws Hc. induction ws as [|x ws IH]; simpl.
  - rewrite Hc. reflexivity.
  - simpl in Hws. inversion Hws as [|? ? Hx Hrest]; subst.
    rewrite Hx. apply IH, Hrest.
Qed.

Lemma no_suffix_without_comma (x : ascii) (r : string) :
  x <> ","%char -> state_suffix_here (String x r) = None.
Proof.
  intros Hx. destruct x as [[] [] [] [] [] [] [] []]; try reflexivity.
  exfalso. apply Hx. reflexivity.
Qed.

Lemma remove_state_comma_free (v : string) :
  comma_free v -> remove_state v = v.
Proof.
  unfold comma_free. induction v as [|x v IH]; intros H; [reflexivity|].
  simpl in H. inversion H as [|? ? Hx Hrest]; subst.
  cbn [remove_state]. rewrite (no_suffix_without_comma x v Hx).
  rewrite (IH Hrest). reflexivity.
Qed.

Lemma before_comma_free (v : string) : comma_free v -> before_comma v = v.
Proof.
  unfold comma_free. induction v as [|x v IH]; intros H; [reflexivity|].
  simpl in H. inversion H as [|? ? Hx Hrest]; subst. simpl.
  destruct (Ascii.eqb_spec x ","%char); [contradiction|].
  rewrite (IH Hrest). reflexivity.
Qed.

Lemma comma_free_sub (s t : string) :
  (forall c, In c (list_ascii_of_string t) -> In c (list_ascii_of_string s)) ->
  comma_free s -> comma_free t.
Proof.
  unfold comma_free. intros Hsub Hs. apply List.Forall_forall. intros c Hc.
  exact (proj1 (List.Forall_forall _ _) Hs c (Hsub c Hc)).
Qed.

Lemma state_letters_upper :
  forallb
    (fun code =>
       match code with
       | String x (String y EmptyString) =>
           Js.in_range 65 90 x && Js.in_range 65 90 y
       | _ => false
       end)
    stateCodes = true.
Proof. reflexivity. Qed.

Lemma same_as_capital (x a : ascii) :
  Js.in_range 65 90 x = true -> Js.same_char_ci x a = true ->
  Js.is_space a = false /\ a <> ","%char.
Proof.
  intros Hx Hs. apply same_char_ci_true in Hs.
  all_chars x (fun x => implb (Js.in_range 65 90 x) (Ascii.eqb (Js.canon x) x)).
  rewrite Hx in H. apply Ascii.eqb_eq in H. rewrite H in Hs.
  all_chars a (fun a => implb (Js.in_range 65 90 (Js.canon a))
                          (negb (Js.is_space a) && negb (Ascii.eqb a ","))).
  rewrite <- Hs, Hx in H0. apply andb_true_iff in H0. destruct H0 as [H1 H2].
  apply negb_true_iff in H1, H2. split; [exact H1|].
  intros ->. discriminate H2.
Qed.

Lemma state_code_letters (a b : ascii) :
  is_state_code a b = true ->
  Js.is_space a = false /\ Js.is_space b = false.
Proof.
  unfold is_state_code. intros H. apply existsb_exists in H.
  destruct H as (code & Hin & H).
  pose proof (proj1 (forallb_forall _ _) state_letters_upper code Hin) as U.
  destruct code as [|x [|y [|z code]]]; try discriminate.
  apply andb_true_iff in H, U. destruct H as [Ha Hb], U as [Ux Uy].
  split; [apply (same_as_capital x a Ux Ha)|apply (same_as_capital y b Uy Hb)].
Qed.

Lemma remove_state_eq (s : string) :
  remove_state s =
  match state_suffix_here s with
  | Some rest => rest
  | None =>
      match s with
      | String c r => String c (remove_state r)
      | EmptyString => EmptyString
      end
  end.
Proof. destruct s; reflexivity. Qed.

Lemma remove_state_suffix (u ws : string) (a b : ascii) :
  comma_free u -> blank ws -> is_state_code a b = true ->
  remove_state (u +:+ String "," (ws +:+ String a (String b ""))) = u.
Proof.
  intros Hu Hws Hab. destruct (state_code_letters a b Hab) as [Ha _].
  unfold comma_free in Hu. induction u as [|x u IH].
  - change ("" +:+ String "," (ws +:+ String a (String b "")))
      with (String "," (ws +:+ String a (String b ""))).
    rewrite remove_state_eq.
    change (state_suffix_here (String "," (ws +:+ String a (String b ""))))
      with (match Js.trim_start (ws +:+ String a (String b "")) with
            | String a' (String b' rest) =>
                let boundary :=
                  match rest with
                  | String c _ => negb (is_word c)
                  | EmptyString => true
                  end in
                if is_state_code a' b' && boundary then Some rest else None
            | _ => None
            end).
    rewrite (trim_start_blank ws a _ Hws Ha). cbv zeta. rewrite Hab. reflexivity.
  - simpl in Hu. inversion Hu as [|? ? Hx Hrest]; subst.
    change (String x u +:+ String "," (ws +:+ String a (String b "")))
      with (String x (u +:+ String "," (ws +:+ String a (String b "")))).
    rewrite remove_state_eq, (no_suffix_without_comma x _ Hx).
    rewrite (IH Hrest). reflexivity.
Qed.

Lemma append_assoc (a b c : string) : (a +:+ b) +:+ c = a +:+ (b +:+ c).
Proof.
  induction a as [|x a IH]; [reflexivity|].
  change (String x ((a +:+ b) +:+ c) = String x (a +:+ (b +:+ c))).
  rewrite IH. reflexivity.
Qed.

(** X16: a comma, any white space and a state code at the end of a name
    without commas do not change the slug: "Los Angeles, CA" and "Los Angeles"
    ask for the same page. *)
Theorem citySlug_drops_state (name ws : string) (a b : ascii) :
  comma_free name -> blank ws -> is_state_code a b = true ->
  citySlug (name +:+ String "," (ws +:+ String a (String b ""))) =
  citySlug name.
Proof.
  intros Hn Hws Hab. destruct (state_code_letters a b Hab) as [Ha Hb].
  unfold citySlug. cbv zeta.
  assert (Hts : comma_free (Js.trim_start name)).
  { apply (comma_free_sub name); [apply trim_start_chars|exact Hn]. }
  assert (Ht : comma_free (Js.trim name)).
  { apply (comma_free_sub name); [apply trim_chars|exact Hn]. }
  assert (E : Js.trim (name +:+ String "," (ws +:+ String a (String b ""))) =
              Js.trim_start name +:+ String "," (ws +:+ String a (String b ""))).
  { unfold Js.trim. rewrite trim_start_append by reflexivity.
    replace (Js.trim_start name +:+ String "," (ws +:+ String a (String b "")))
      with ((Js.trim_start name +:+ String "," (ws +:+ String a "")) +:+ String b "").
    - apply trim_end_last, Hb.
    - rewrite append_assoc.
      change (String "," (ws +:+ String a "") +:+ String b "")
        with (String "," ((ws +:+ String a "") +:+ String b "")).
      rewrite append_assoc. reflexivity. }
  rewrite E, (remove_state_suffix _ ws a b Hts Hws Hab).
  rewrite (before_comma_free _ Hts), trim_of_trim_start.
  rewrite (remove_state_comma_free _ Ht), (before_comma_free _ Ht), trim_idem.
  reflexivity.
Qed.

Lemma citySlug_drops_state_witness :
  citySlug "Los Angeles, ca" = citySlug "Los Angeles".
Proof.
  refine (citySlug_drops_state "Los Angeles" " " "c" "a" _ _ eq_refl).
  - repeat (constructor; [discriminate|]). constructor.
  - repeat constructor.
Defined.

(** ** searchReddit and the whole endpoint *)

(** X17: searchReddit keeps the order of the listing and runs its filter
    over the whole listing before it maps: without a null child, the posts of
    two stretches of children joined are the posts of the first followed by
    those of the second, a child with data and a title gives its one post and
    any other child gives none; a null child anywhere, even after children
    that would give posts, makes the result empty, as a rejected request or a
    body without a listing does. *)
Theorem searchReddit_in_order (cityName : string) (first later : list RedditChild) :
  existsb isNullChild (first ++ later) = false ->
  searchReddit (fun _ => Listing (first ++ later)) cityName =
    searchReddit (fun _ => Listing first) cityName ++
    searchReddit (fun _ => Listing later) cityName /\
  searchReddit (fun _ => Listing (first ++ NullChild :: later)) cityName = [] /\
  (forall d,
     searchReddit (fun _ => Listing [Child (Some d)]) cityName =
     if Js.is_empty (data_title d) then []
     else [mkPost (data_title d) (data_subreddit d)
             ("https://reddit.com" +:+ permalink d) (data_score d)
             (num_comments d)]) /\
  searchReddit (fun _ => Listing [Child None]) cityName = [] /\
  searchReddit (fun _ => Rejected) cityName = [] /\
  searchReddit (fun _ => NoListing) cityName = [].
Proof.
  intros H. unfold searchReddit. rewrite H.
  rewrite existsb_app in H. apply orb_false_iff in H. destruct H as [H1 H2].
  rewrite H1, H2. split; [rewrite List.filter_app, List.map_app; reflexivity|].
  split.
  { rewrite existsb_app. cbn [existsb isNullChild]. rewrite orb_true_r.
    reflexivity. }
  split; [|repeat split].
  intros d. cbn [existsb isNullChild orb List.filter hasTitle].
  destruct (Js.is_empty (data_title d)); reflexivity.
Qed.

Lemma searchReddit_in_order_witness :
  searchReddit
    (fun _ => Listing
       [Child (Some (mkRedditData "Rent in Austin" "Austin" "/r/Austin/1"
                       (Js.Num 12) (Js.Num 3)));
        Child (Some (mkRedditData "" "Austin" "/r/Austin/2" (Js.Num 1) (Js.Num 0)));
        NullChild])
    "Austin" = [].
Proof.
  exact (proj1 (proj2 (searchReddit_in_order "Austin"
    [Child (Some (mkRedditData "Rent in Austin" "Austin" "/r/Austin/1"
                    (Js.Num 12) (Js.Num 3)));
     Child (Some (mkRedditData "" "Austin" "/r/Austin/2" (Js.Num 1) (Js.Num 0)))]
    [] eq_refl))).
Defined.

Lemma encode_char_safe (x c : ascii) :
  In c (encode_char x) -> unreserved c = true \/ c = "%"%char.
Proof.
  all_chars x (fun x => forallb (fun c => unreserved c || Ascii.eqb c "%")
                          (encode_char x)).
  intros Hc. rewrite forallb_forall in H. specialize (H c Hc).
  apply orb_true_iff in H. destruct H as [H|H]; [left; exact H|right].
  apply Ascii.eqb_eq, H.
Qed.

(** X18: the escaped query holds only unreserved characters and percent
    signs, so that no character of the city name can end the query or start
    another parameter of the search address. *)
Theorem encodeURIComponent_safe (s : string) (c : ascii) :
  In c (list_ascii_of_string (encodeURIComponent s)) ->
  (unreserved c = true \/ c = "%"%char) /\
  c <> "&"%char /\ c <> "="%char /\ c <> "#"%char /\ c <> "?"%char /\
  c <> "/"%char /\ c <> " "%char.
Proof.
  unfold encodeURIComponent. rewrite list_ascii_of_string_of_list_ascii.
  intros H. apply in_flat_map in H. destruct H as (x & _ & H).
  pose proof (encode_char_safe x c H) as S. split; [exact S|].
  repeat split; intros ->; destruct S as [S|S]; discriminate S.
Qed.

Lemma encodeURIComponent_safe_witness :
  (unreserved "%" = true \/ "%"%char = "%"%char) /\
  "%"%char <> "&"%char /\ "%"%char <> "="%char /\ "%"%char <> "#"%char /\
  "%"%char <> "?"%char /\ "%"%char <> "/"%char /\ "%"%char <> " "%char.
Proof.
  exact (encodeURIComponent_safe "R&D" "%" (or_intror (or_introl eq_refl))).
Defined.

(** X19: the search never touches the prices: with two different answers of
    the search, the endpoint gives the same status, the same six amounts and
    the same sources; only the discussions differ, and they are the first
    five posts at most. *)
Theorem endpoint_prices_ignore_search (fetch : string -> option Document)
    (reddit reddit' : string -> RedditAnswer) (cityName today : string) :
  match endpoint fetch reddit cityName today,
        endpoint fetch reddit' cityName today with
  | Ok b, Ok b' =>
      housing_cityCenter b = housing_cityCenter b' /\
      housing_outside b = housing_outside b' /\
      food_monthly b = food_monthly b' /\
      transportation_monthly b = transportation_monthly b' /\
      utilities_monthly b = utilities_monthly b' /\
      entertainment_monthly b = entertainment_monthly b' /\
      sources b = sources b' /\
      redditDiscussions b = firstn 5 (searchReddit reddit cityName) /\
      (length (redditDiscussions b) <= 5)%nat
  | Status404 e, Status404 e' => e = e'
  | _, _ => False
  end.
Proof.
  unfold endpoint, handler.
  destruct (chooseData cityName (scrapeNumbeo fetch cityName)); [|reflexivity].
  unfold compile. cbn [housing_cityCenter housing_outside food_monthly
    transportation_monthly utilities_monthly entertainment_monthly sources
    redditDiscussions].
  repeat split. apply firstn_le_length.
Qed.

(** X20: once the scrape has a truthy housingCenter, the fallback table is
    out of the picture even for a registered city: a category that the page
    lacks gets the fixed default (800, 70, 150, and 400 and 150 for the two
    estimates), never the number of the fallback record, and the sources name
    the live scrape. *)
Theorem scraped_gaps_get_defaults (cityName : string)
    (fetch : string -> option Document) (posts : list RedditPost)
    (today : string) (data : ScrapeData) :
  scrapeNumbeo fetch cityName = Some data ->
  Js.truthy (get (categories data) "housingCenter") = true ->
  exists body,
    handler cityName fetch posts today = Ok body /\
    housing_cityCenter body =
      Js.Math_round (get (categories data) "housingCenter") /\
    (categories data !! "housingOutside" = None ->
     housing_outside body = Js.Num 800) /\
    (categories data !! "transportation" = None ->
     transportation_monthly body = Js.Num 70) /\
    (categories data !! "utilities" = None ->
     utilities_monthly body = Js.Num 150) /\
    (categories data !! "mealRestaurant" = None ->
     food_monthly body = Js.Num 400 /\ entertainment_monthly body = Js.Num 150) /\
    sources body = liveSources.
Proof.
  intros S T. unfold handler, chooseData. rewrite S, T. simpl.
  eexists. split; [reflexivity|]. unfold compile.
  cbn [housing_cityCenter housing_outside food_monthly transportation_monthly
       utilities_monthly entertainment_monthly sources].
  split; [unfold Js.or; rewrite T; reflexivity|].
  unfold get.
  split; [intros E; rewrite E; reflexivity|].
  split; [intros E; rewrite E; reflexivity|].
  split; [intros E; rewrite E; reflexivity|].
  split; [intros E; rewrite E; split; reflexivity|reflexivity].
Qed.

Lemma scraped_gaps_get_defaults_witness :
  exists body,
    handler "New York"
      (fun _ => Some [[["Apartment (1 bedroom) in City Centre"; "4,100.00 $"]]])
      [] "" = Ok body /\
    housing_cityCenter body = Js.Num 4100 /\
    housing_outside body = Js.Num 800 /\
    transportation_monthly body = Js.Num 70 /\
    utilities_monthly body = Js.Num 150 /\
    food_monthly body = Js.Num 400 /\ entertainment_monthly body = Js.Num 150 /\
    sources body = liveSources.
Proof.
  destruct (scraped_gaps_get_defaults "New York"
              (fun _ => Some [[["Apartment (1 bedroom) in City Centre"; "4,100.00 $"]]])
              [] ""
              (scanTables [[["Apartment (1 bedroom) in City Centre"; "4,100.00 $"]]])
              eq_refl eq_refl)
    as (body & H & Hc & Ho & Ht & Hu & Hm & Hs).
  exists body. split; [exact H|]. split; [exact Hc|].
  split; [exact (Ho eq_refl)|]. split; [exact (Ht eq_refl)|].
  split; [exact (Hu eq_refl)|].
  split; [exact (proj1 (Hm eq_refl))|].
  split; [exact (proj2 (Hm eq_refl))|exact Hs].
Defined.

Lemma remove_all_none (cls : ascii -> bool) (s : string) :
  (forall c, In c (list_ascii_of_string s) -> cls c = false) ->
  Js.remove_all cls s = s.
Proof.
  induction s as [|x s IH]; intros H; simpl; [reflexivity|].
  rewrite (H x) by (left; reflexivity). rewrite IH; [reflexivity|].
  intros c Hc. apply H. right. exact Hc.
Qed.

Lemma trim_end_no_space (s : string) :
  (forall c, In c (list_ascii_of_string s) -> Js.is_space c = false) ->
  Js.trim_end s = s.
Proof.
  induction s as [|x s IH]; intros H; [reflexivity|]. cbn [Js.trim_end].
  rewrite IH by (intros c Hc; apply H; right; exact Hc).
  destruct s; [|reflexivity]. rewrite (H x) by (left; reflexivity). reflexivity.
Qed.

Lemma trim_no_space (s : string) :
  (forall c, In c (list_ascii_of_string s) -> Js.is_space c = false) ->
  Js.trim s = s.
Proof.
  intros H. unfold Js.trim. rewrite (trim_start_of_clean s).
  - apply trim_end_no_space, H.
  - destruct s as [|x s]; [exact I|]. apply H. left. reflexivity.
Qed.

Lemma hyphenate_no_space (s : string) (inside : bool) :
  (forall c, In c (list_ascii_of_string s) -> Js.is_space c = false) ->
  hyphenate_run inside s = s.
Proof.
  revert inside. induction s as [|x s IH]; intros inside H; simpl; [reflexivity|].
  rewrite (H x) by (left; reflexivity).
  rewrite IH; [reflexivity|]. intros c Hc. apply H. right. exact Hc.
Qed.

Lemma slug_char_plain (c : ascii) :
  not_slug_char c = false ->
  Js.is_space c = false /\ c <> ","%char.
Proof.
  all_chars c (fun c => implb (negb (not_slug_char c))
                          (negb (Js.is_space c) && negb (Ascii.eqb c ","))).
  intros N. rewrite N in H. simpl in H. apply andb_true_iff in H.
  destruct H as [H1 H2]. apply negb_true_iff in H1, H2.
  split; [exact H1|]. intros ->. discriminate H2.
Qed.

(** X21: the slug is a normal form: the slug of a slug is the slug itself,
    so that a name already in the form of the scrape target is asked for as
    it is. *)
Theorem citySlug_idempotent (cityName : string) :
  citySlug (citySlug cityName) = citySlug cityName.
Proof.
  set (slug := citySlug cityName).
  assert (P : forall c, In c (list_ascii_of_string slug) ->
                        not_slug_char c = false).
  { intros c H. unfold slug, citySlug in H. cbv zeta in H.
    apply (remove_all_chars _ _ _ H). }
  assert (S : forall c, In c (list_ascii_of_string slug) ->
                        Js.is_space c = false).
  { intros c H. apply (slug_char_plain c (P c H)). }
  assert (C : comma_free slug).
  { apply List.Forall_forall. intros c H. apply (slug_char_plain c (P c H)). }
  unfold citySlug at 1. cbv zeta.
  rewrite (trim_no_space slug S), (remove_state_comma_free slug C).
  rewrite (before_comma_free slug C), (trim_no_space slug S).
  unfold hyphenate. rewrite (hyphenate_no_space slug false S).
  apply remove_all_none, P.
Qed.
